(** * Network Performance Monitor: the metrics synchronization layer

    A shallow embedding of the React metrics store of the frontend
    ([contexts/MetricsContext]: [MetricsProvider], [fetchData],
    [handleWebSocketUpdate], [useMetrics]), of the selection widget
    ([MultiSelect]) and of the table view ([TableMode]:
    [transformedData], [filteredData]).

    JavaScript numbers are modelled as exact rationals ([Q]); values
    that arrive untyped over the update channel ([data: any]) are
    modelled as JSON values ([Json]); React state is a record threaded
    through a small state monad together with the console. *)

From Stdlib Require Import List String Ascii Bool Arith Lia.
From Stdlib Require Import ZArith QArith Qminmax Lqa DecimalString DecimalNat.
Import ListNotations.

Local Open Scope string_scope.
Local Open Scope list_scope.

(** ** JavaScript values and primitives *)

Module JS.

(** A value delivered by the update channel, after [JSON.parse]. *)
#[local] Unset Elimination Schemes.
Inductive Json : Type :=
| JNull
| JBool (b : bool)
| JNum (n : Q)
| JStr (s : string)
| JArr (items : list Json)
| JObj (props : list (string * Json)).
#[local] Set Elimination Schemes.

(** The result of an expression that may be [undefined]. *)
Definition Value := option Json.

Definition undefined : Value := None.

Fixpoint assoc {A : Type} (key : string) (props : list (string * A)) : option A :=
  match props with
  | [] => None
  | (k, v) :: rest => if String.eqb k key then Some v else assoc key rest
  end.

(** [v.key]: own properties exist on objects only; everything else
    answers [undefined] for the names used here. *)
Definition prop (key : string) (v : Value) : Value :=
  match v with
  | Some (JObj props) => assoc key props
  | _ => undefined
  end.

(** JavaScript truthiness ([ToBoolean]). *)
Definition truthy (v : Value) : bool :=
  match v with
  | None => false
  | Some JNull => false
  | Some (JBool b) => b
  | Some (JNum n) => negb (Qeq_bool n 0)
  | Some (JStr s) => negb (String.eqb s EmptyString)
  | Some (JArr _) => true
  | Some (JObj _) => true
  end.

(** [Array.isArray(v)]. *)
Definition isArray (v : Value) : bool :=
  match v with
  | Some (JArr _) => true
  | _ => false
  end.

(** [x || 0] on a number that may be missing. *)
Definition orZero (x : option Q) : Q :=
  match x with
  | Some n => n
  | None => 0%Q
  end.

(** [a > b] on numbers. *)
Definition gt (a b : Q) : bool := negb (Qle_bool a b).

(** [Math.max(a, b)]. *)
Definition Math_max (a b : Q) : Q := Qmax a b.

(** [arr.includes(x)] on an array of strings. *)
Definition includes (arr : list string) (x : string) : bool :=
  existsb (String.eqb x) arr.

(** [s.includes(sub)]: [sub] occurs somewhere in [s]. *)
Fixpoint str_includes (s sub : string) : bool :=
  String.prefix sub s ||
  match s with
  | EmptyString => false
  | String _ rest => str_includes rest sub
  end.

Definition lower_ascii (c : ascii) : ascii :=
  let n := nat_of_ascii c in
  if (65 <=? n)%nat && (n <=? 90)%nat then ascii_of_nat (n + 32) else c.

(** [s.toLowerCase()], on the ASCII letters. *)
Fixpoint toLowerCase (s : string) : string :=
  match s with
  | EmptyString => EmptyString
  | String c rest => String (lower_ascii c) (toLowerCase rest)
  end.

(** [`${n}`] for a non-negative integer. *)
Definition showNat (n : nat) : string :=
  NilZero.string_of_uint (Nat.to_uint n).

(** [arr.find(p)]. *)
Definition find {A : Type} (p : A -> bool) (arr : list A) : option A :=
  List.find p arr.

(** [arr.map((x, index) => f(x, index))]. *)
Fixpoint mapi_from {A B : Type} (start : nat) (f : A -> nat -> B) (arr : list A) : list B :=
  match arr with
  | [] => []
  | x :: rest => f x start :: mapi_from (S start) f rest
  end.

Definition mapi {A B : Type} (f : A -> nat -> B) (arr : list A) : list B :=
  mapi_from 0 f arr.

End JS.

Import JS.

(** ** Data model *)

(** Modelled from the spec: the type declarations [NetworkInterface],
  [PerformanceMetric], [AllMetrics] and [ChartDataPoint] live in
  [lib/api.ts], which is not part of the sources.  The records below
  carry the fields that the store, the dashboard and the table view
  read; numeric sample fields are optional because every reader
  guards them with [|| 0]. *)

Module NetworkInterface.
Record t : Type := mk {
  name : string;
  ipv4 : option string;
  ipv6 : option string
}.
End NetworkInterface.

Module PerformanceMetric.
Record t : Type := mk {
  interface : string;
  timestamp : option string;
  latency : option Q;
  throughput : option Q;
  bytes_sent : option Q;
  bytes_recv : option Q;
  packets_sent : option Q;
  packets_recv : option Q
}.
End PerformanceMetric.

Module AllMetrics.
Record t : Type := mk {
  performance_metrics : list PerformanceMetric.t;
  interfaces : list NetworkInterface.t;
  timestamp : option string
}.
End AllMetrics.

Module ChartDataPoint.
Record t : Type := mk {
  time : string;
  fields : list (string * Q)
}.
End ChartDataPoint.

Module LatestMetric.
Record t : Type := mk {
  latency : Q;
  throughput : Q;
  packetLoss : Q;
  bandwidth : Q
}.

Definition zero : t := mk 0 0 0 0.
End LatestMetric.

(** ** Typed reading of channel payloads

  The handler receives [data: any] and reads it at the TypeScript
  types above without validation.  [Typed] gives that reading; it
  answers [None] where a value does not have the declared type. *)

Module Typed.

Fixpoint traverse {A B : Type} (f : A -> option B) (l : list A) : option (list B) :=
  match l with
  | [] => Some []
  | x :: rest =>
      match f x, traverse f rest with
      | Some y, Some ys => Some (y :: ys)
      | _, _ => None
      end
  end.

Definition string_ (v : Value) : option string :=
  match v with
  | Some (JStr s) => Some s
  | _ => None
  end.

Definition optString (v : Value) : option (option string) :=
  match v with
  | None | Some JNull => Some None
  | Some (JStr s) => Some (Some s)
  | _ => None
  end.

Definition optNumber (v : Value) : option (option Q) :=
  match v with
  | None | Some JNull => Some None
  | Some (JNum n) => Some (Some n)
  | _ => None
  end.

Definition array {A : Type} (elem : Json -> option A) (v : Value) : option (list A) :=
  match v with
  | Some (JArr items) => traverse elem items
  | _ => None
  end.

Definition networkInterface (j : Json) : option NetworkInterface.t :=
  match string_ (prop "name" (Some j)),
        optString (prop "ipv4" (Some j)),
        optString (prop "ipv6" (Some j)) with
  | Some n, Some v4, Some v6 => Some (NetworkInterface.mk n v4 v6)
  | _, _, _ => None
  end.

Definition performanceMetric (j : Json) : option PerformanceMetric.t :=
  let f key := prop key (Some j) in
  match string_ (f "interface"), optString (f "timestamp") with
  | Some i, Some ts =>
      match optNumber (f "latency"), optNumber (f "throughput"),
            optNumber (f "bytes_sent"), optNumber (f "bytes_recv"),
            optNumber (f "packets_sent"), optNumber (f "packets_recv") with
      | Some l, Some t, Some bs, Some br, Some ps, Some pr =>
          Some (PerformanceMetric.mk i ts l t bs br ps pr)
      | _, _, _, _, _, _ => None
      end
  | _, _ => None
  end.

Definition allMetrics (j : Json) : option AllMetrics.t :=
  match array performanceMetric (prop "performance_metrics" (Some j)),
        array networkInterface (prop "interfaces" (Some j)),
        optString (prop "timestamp" (Some j)) with
  | Some pm, Some ifs, Some ts => Some (AllMetrics.mk pm ifs ts)
  | _, _, _ => None
  end.

End Typed.

(** ** The helpers of [lib/api.ts] *)

Module Api.

(** Modelled from the spec: the result of [getLatestMetrics], as the
    store destructures it ([latestMetric], [avgLatency],
    [avgThroughput]). *)
Record LatestResult : Type := mkResult {
  latestMetric : LatestMetric.t;
  avgLatency : Q;
  avgThroughput : Q
}.

(** Modelled from the spec: the sum under the means of section 4.4. *)
Definition sum (xs : list Q) : Q := fold_right Qplus 0%Q xs.

(** Modelled from the spec: the arithmetic mean, 0 over no value. *)
Definition mean (xs : list Q) : Q :=
  match xs with
  | [] => 0%Q
  | _ => (sum xs / inject_Z (Z.of_nat (List.length xs)))%Q
  end.

(** Modelled from the spec: the per-sample derived fields of section
    4.1, [packet_loss_pct = max(0, (sent - recv) / sent * 100)] when
    [sent > 0], else [0], and [bandwidth_mb = bytes_recv / (1024*1024)];
    [lib/api.ts], which computes them, is not part of the sources. *)
Definition packetLossPct (m : PerformanceMetric.t) : Q :=
  let sent := orZero (PerformanceMetric.packets_sent m) in
  let recv := orZero (PerformanceMetric.packets_recv m) in
  if gt sent 0 then Math_max 0 ((sent - recv) / sent * 100)%Q else 0%Q.

(** Modelled from the spec: [bandwidth_mb] of section 4.1. *)
Definition bandwidthMb (m : PerformanceMetric.t) : Q :=
  (orZero (PerformanceMetric.bytes_recv m) / (1024 * 1024))%Q.

(** Modelled from the spec: the samples whose interface is selected
    (section 4.4). *)
Definition filterSelected (metrics : list PerformanceMetric.t) (selected : list string)
  : list PerformanceMetric.t :=
  filter (fun m => includes selected (PerformanceMetric.interface m)) metrics.

(** Modelled from the spec: the most recent sample of an interface
    (section 4.4); samples are in arrival order, so the last one of
    the interface wins. *)
Definition mostRecent (name : string) (samples : list PerformanceMetric.t)
  : option PerformanceMetric.t :=
  List.find (fun m => String.eqb (PerformanceMetric.interface m) name) (rev samples).

(** Modelled from the spec: the most recent sample of every interface
    that has one. *)
Definition latestPerInterface (samples : list PerformanceMetric.t) : list PerformanceMetric.t :=
  flat_map
    (fun name => match mostRecent name samples with Some m => [m] | None => [] end)
    (nodup string_dec (map PerformanceMetric.interface samples)).

(** Modelled from the spec: [getLatestMetrics] of [lib/api.ts] is not
    part of the sources.  Section 4.4: filter the samples to
    the samples whose interface is selected; if nothing is left every KPI is 0; the
    averages are arithmetic means over the filtered samples; the latest
    values are taken from the most recent sample per interface and
    averaged across those interfaces. *)
Definition getLatestMetrics (metrics : list PerformanceMetric.t) (selectedInterfaces : list string)
  : LatestResult :=
  match filterSelected metrics selectedInterfaces with
  | [] => mkResult LatestMetric.zero 0 0
  | filtered =>
      let recent := latestPerInterface filtered in
      let over (f : PerformanceMetric.t -> Q) (l : list PerformanceMetric.t) := mean (map f l) in
      mkResult
        (LatestMetric.mk
           (over (fun m => orZero (PerformanceMetric.latency m)) recent)
           (over (fun m => orZero (PerformanceMetric.throughput m)) recent)
           (over packetLossPct recent)
           (over bandwidthMb recent))
        (over (fun m => orZero (PerformanceMetric.latency m)) filtered)
        (over (fun m => orZero (PerformanceMetric.throughput m)) filtered)
  end.

(** Modelled from the spec: the axis label of a snapshot; section 4.3
    leaves the display format open, so the label is the timestamp as
    received. *)
Definition timeLabel (timestamp : option string) : string :=
  match timestamp with
  | Some t => t
  | None => EmptyString
  end.

(** Modelled from the spec: the two fields a sample adds to its chart
    point (section 4.3). *)
Definition chartFields (m : PerformanceMetric.t) : list (string * Q) :=
  [ (String.append "latency_" (PerformanceMetric.interface m), orZero (PerformanceMetric.latency m));
    (String.append "throughput_" (PerformanceMetric.interface m), orZero (PerformanceMetric.throughput m)) ].

(** Modelled from the spec: [convertHistoricalToChartData] of
    [lib/api.ts] is not part of the sources.  Section 4.3: one
    ChartPoint per snapshot, in snapshot order, labelled with the
    snapshot's timestamp and carrying [latency_<iface>] and
    [throughput_<iface>] for every sample of that snapshot. *)
Definition convertHistoricalToChartData (history : list AllMetrics.t) : list ChartDataPoint.t :=
  map
    (fun snapshot =>
       ChartDataPoint.mk
         (timeLabel (AllMetrics.timestamp snapshot))
         (flat_map chartFields (AllMetrics.performance_metrics snapshot)))
    history.

End Api.

(** ** The metrics store ([contexts/MetricsContext]) *)

Module MetricsContext.

Import Api.

(** The [useState] cells of [MetricsProvider]. *)
Record State : Type := mkState {
  metrics : list PerformanceMetric.t;
  interfaces : list NetworkInterface.t;
  chartData : list ChartDataPoint.t;
  latestMetrics : LatestMetric.t;
  avgLatency : Q;
  avgThroughput : Q;
  availableInterfaces : list string;
  selectedInterfaces : list string;
  loading : bool;
  error : option string
}.

(** The initial values given to [useState]. *)
Definition initialState : State :=
  mkState [] [] [] (LatestMetric.mk 0 0 0 0) 0 0 [] [] true None.

Inductive LogEntry : Type :=
| Warn (message : string) (argument : Json)
| Error (message : string).

(** What a handler can touch: the React state and the console. *)
Record World : Type := mkWorld {
  state : State;
  console : list LogEntry
}.

(** Handlers are state transformers over [World].  [None] stands for a
    run that leaves the typed model: a payload that passed a shape
    guard but whose content does not have the TypeScript type the
    handler reads it at. *)
Definition Eff (A : Type) : Type := World -> option (A * World).

Definition ret {A : Type} (a : A) : Eff A := fun w => Some (a, w).

Definition bind {A B : Type} (m : Eff A) (k : A -> Eff B) : Eff B :=
  fun w =>
    match m w with
    | Some (a, w') => k a w'
    | None => None
    end.

Definition illTyped {A : Type} : Eff A := fun _ => None.

Definition getState : Eff State := fun w => Some (state w, w).

Definition modify (f : State -> State) : Eff unit :=
  fun w => Some (tt, mkWorld (f (state w)) (console w)).

Definition log (entry : LogEntry) : Eff unit :=
  fun w => Some (tt, mkWorld (state w) (console w ++ [entry])).

(** The world after running a handler, when the run stays in the model. *)
Definition exec {A : Type} (m : Eff A) (w : World) : option World :=
  match m w with
  | Some (_, w') => Some w'
  | None => None
  end.

Declare Scope eff_scope.
Delimit Scope eff_scope with eff.
Notation "x <- m ;; k" := (bind m (fun x => k))
  (at level 100, m at next level, right associativity) : eff_scope.
Notation "m ;; k" := (bind m (fun _ => k))
  (at level 100, right associativity) : eff_scope.
Local Open Scope eff_scope.

(** The state setters returned by [useState]. *)
Definition setMetrics (v : list PerformanceMetric.t) : Eff unit :=
  modify (fun s => mkState v (interfaces s) (chartData s) (latestMetrics s)
    (avgLatency s) (avgThroughput s) (availableInterfaces s) (selectedInterfaces s)
    (loading s) (error s)).

Definition setInterfaces (v : list NetworkInterface.t) : Eff unit :=
  modify (fun s => mkState (metrics s) v (chartData s) (latestMetrics s)
    (avgLatency s) (avgThroughput s) (availableInterfaces s) (selectedInterfaces s)
    (loading s) (error s)).

Definition setChartData (v : list ChartDataPoint.t) : Eff unit :=
  modify (fun s => mkState (metrics s) (interfaces s) v (latestMetrics s)
    (avgLatency s) (avgThroughput s) (availableInterfaces s) (selectedInterfaces s)
    (loading s) (error s)).

Definition setLatestMetrics (v : LatestMetric.t) : Eff unit :=
  modify (fun s => mkState (metrics s) (interfaces s) (chartData s) v
    (avgLatency s) (avgThroughput s) (availableInterfaces s) (selectedInterfaces s)
    (loading s) (error s)).

Definition setAvgLatency (v : Q) : Eff unit :=
  modify (fun s => mkState (metrics s) (interfaces s) (chartData s) (latestMetrics s)
    v (avgThroughput s) (availableInterfaces s) (selectedInterfaces s)
    (loading s) (error s)).

Definition setAvgThroughput (v : Q) : Eff unit :=
  modify (fun s => mkState (metrics s) (interfaces s) (chartData s) (latestMetrics s)
    (avgLatency s) v (availableInterfaces s) (selectedInterfaces s)
    (loading s) (error s)).

Definition setAvailableInterfaces (v : list string) : Eff unit :=
  modify (fun s => mkState (metrics s) (interfaces s) (chartData s) (latestMetrics s)
    (avgLatency s) (avgThroughput s) v (selectedInterfaces s)
    (loading s) (error s)).

Definition setSelectedInterfaces (v : list string) : Eff unit :=
  modify (fun s => mkState (metrics s) (interfaces s) (chartData s) (latestMetrics s)
    (avgLatency s) (avgThroughput s) (availableInterfaces s) v
    (loading s) (error s)).

Definition setLoading (v : bool) : Eff unit :=
  modify (fun s => mkState (metrics s) (interfaces s) (chartData s) (latestMetrics s)
    (avgLatency s) (avgThroughput s) (availableInterfaces s) (selectedInterfaces s)
    v (error s)).

Definition setError (v : option string) : Eff unit :=
  modify (fun s => mkState (metrics s) (interfaces s) (chartData s) (latestMetrics s)
    (avgLatency s) (avgThroughput s) (availableInterfaces s) (selectedInterfaces s)
    (loading s) v).

(** [fetchData], run to completion.  [selectedInterfaces] is the value
    the closure captured from the render that created it; [response] is
    the outcome of [await fetchAllMetrics()], [None] when the promise
    rejects. *)
Definition fetchData (selectedInterfaces : list string) (response : option AllMetrics.t)
  : Eff unit :=
  setLoading true ;;
  setError None ;;
  match response with
  | Some allMetrics =>
      setMetrics (AllMetrics.performance_metrics allMetrics) ;;
      setInterfaces (AllMetrics.interfaces allMetrics) ;;
      let chartData := convertHistoricalToChartData [allMetrics] in
      setChartData chartData ;;
      let r := getLatestMetrics (AllMetrics.performance_metrics allMetrics) selectedInterfaces in
      setLatestMetrics (latestMetric r) ;;
      setAvgLatency (Api.avgLatency r) ;;
      setAvgThroughput (Api.avgThroughput r) ;;
      let interfaceNames := map NetworkInterface.name (AllMetrics.interfaces allMetrics) in
      setAvailableInterfaces interfaceNames
  | None =>
      log (Error "Error fetching metrics:") ;;
      setError (Some "Failed to fetch network metrics") ;;
      setMetrics [] ;;
      setInterfaces [] ;;
      setChartData [] ;;
      setLatestMetrics (LatestMetric.mk 0 0 0 0) ;;
      setAvgLatency 0 ;;
      setAvgThroughput 0 ;;
      setAvailableInterfaces []
  end ;;
  setLoading false.

(** The first guard of [handleWebSocketUpdate]:
    [data && data.current_data && data.historical_data]. *)
Definition isCurrentFormat (data : Json) : bool :=
  truthy (Some data) && truthy (prop "current_data" (Some data))
  && truthy (prop "historical_data" (Some data)).

(** The second guard:
    [data && data.performance_metrics && Array.isArray(data.performance_metrics)]. *)
Definition isLegacyFormat (data : Json) : bool :=
  truthy (Some data) && truthy (prop "performance_metrics" (Some data))
  && isArray (prop "performance_metrics" (Some data)).

(** [data.interfaces || []], read at [NetworkInterface[]]. *)
Definition interfacesOrEmpty (data : Json) : option (list NetworkInterface.t) :=
  if truthy (prop "interfaces" (Some data))
  then Typed.array Typed.networkInterface (prop "interfaces" (Some data))
  else Some [].

(** [handleWebSocketUpdate].  [selectedInterfaces] is the value captured
    by the closure when the subscription effect created the handler;
    [now] is [new Date().toISOString()] at the time of the call. *)
Definition handleWebSocketUpdate (selectedInterfaces : list string) (now : string)
    (data : Json) : Eff unit :=
  if isCurrentFormat data then
    match option_map Typed.allMetrics (prop "current_data" (Some data)),
          Typed.array Typed.allMetrics (prop "historical_data" (Some data)) with
    | Some (Some currentData), Some historical_data =>
        setMetrics (AllMetrics.performance_metrics currentData) ;;
        setInterfaces (AllMetrics.interfaces currentData) ;;
        let chartData := convertHistoricalToChartData historical_data in
        setChartData chartData ;;
        let r := getLatestMetrics (AllMetrics.performance_metrics currentData) selectedInterfaces in
        setLatestMetrics (latestMetric r) ;;
        setAvgLatency (Api.avgLatency r) ;;
        setAvgThroughput (Api.avgThroughput r) ;;
        let interfaceNames := map NetworkInterface.name (AllMetrics.interfaces currentData) in
        setAvailableInterfaces interfaceNames ;;
        if (List.length selectedInterfaces =? 0)%nat && (0 <? List.length interfaceNames)%nat
        then setSelectedInterfaces interfaceNames
        else ret tt
    | _, _ => illTyped
    end
  else if isLegacyFormat data then
    match Typed.array Typed.performanceMetric (prop "performance_metrics" (Some data)),
          interfacesOrEmpty data with
    | Some performance_metrics, Some interfaces =>
        setMetrics performance_metrics ;;
        setInterfaces interfaces ;;
        let chartData :=
          convertHistoricalToChartData
            [AllMetrics.mk performance_metrics interfaces (Some now)] in
        setChartData chartData ;;
        let r := getLatestMetrics performance_metrics selectedInterfaces in
        setLatestMetrics (latestMetric r) ;;
        setAvgLatency (Api.avgLatency r) ;;
        setAvgThroughput (Api.avgThroughput r) ;;
        let interfaceNames := map NetworkInterface.name interfaces in
        setAvailableInterfaces interfaceNames ;;
        if (List.length selectedInterfaces =? 0)%nat && (0 <? List.length interfaceNames)%nat
        then setSelectedInterfaces interfaceNames
        else ret tt
    | _, _ => illTyped
    end
  else
    log (Warn "Invalid WebSocket data format:" data).

(** The subscription effect has an empty dependency list: it runs once,
    after the first render, and the handler it subscribes keeps the
    [selectedInterfaces] of that render, the initial [useState] value. *)
Definition subscribedHandler : string -> Json -> Eff unit :=
  handleWebSocketUpdate (selectedInterfaces initialState).

(** The initial pull started by the same effect. *)
Definition initialFetch : option AllMetrics.t -> Eff unit :=
  fetchData (selectedInterfaces initialState).

(** The effect that updates the selection when the available interfaces
    change; it reads the state of the render it runs after.  The
    dashboard and the table view carry a copy of the same effect. *)
Definition reconcileEffect : Eff unit :=
  s <- getState ;;
  if (0 <? List.length (availableInterfaces s))%nat
     && (List.length (selectedInterfaces s) =? 0)%nat
  then setSelectedInterfaces (availableInterfaces s)
  else ret tt.

(** The value handed to [MetricsContext.Provider]: the state cells and
    the two callbacks. *)
Record MetricsContextType : Type := mkValue {
  view : State;
  refreshData : option AllMetrics.t -> Eff unit;
  setSelected : list string -> Eff unit
}.

Definition providerValue (s : State) : MetricsContextType :=
  mkValue s (fetchData (selectedInterfaces s)) setSelectedInterfaces.

(** [createContext<MetricsContextType | undefined>(undefined)]. *)
Definition defaultContext : option MetricsContextType := None.

(** [useContext(MetricsContext)] below the given stack of enclosing
    providers, innermost first. *)
Definition useContext (providers : list (option MetricsContextType))
  : option MetricsContextType :=
  match providers with
  | value :: _ => value
  | [] => defaultContext
  end.

(** What [<MetricsProvider>] puts around its children. *)
Definition MetricsProvider (s : State) (enclosing : list (option MetricsContextType))
  : list (option MetricsContextType) :=
  Some (providerValue s) :: enclosing.

Inductive Completion (A : Type) : Type :=
| Return (value : A)
| Throw (message : string).
Arguments Return {A} value.
Arguments Throw {A} message.

Definition useMetrics (providers : list (option MetricsContextType))
  : Completion MetricsContextType :=
  match useContext providers with
  | None => Throw "useMetrics must be used within a MetricsProvider"
  | Some context => Return context
  end.

End MetricsContext.

(** ** The selection widget ([components/ui/multi-select]) *)

Module MultiSelect.

Record MultiSelectOption : Type := mkOption {
  value : string;
  label : string
}.

(** The options the dashboard and the table view build from the
    available interfaces. *)
Definition optionsOf (availableInterfaces : list string) : list MultiSelectOption :=
  map (fun iface => mkOption iface iface) availableInterfaces.

Section Handlers.

Context {R : Type}.
Variable options : list MultiSelectOption.
Variable selected : list string.
Variable onChange : list string -> R.

Definition handleSelect (v : string) : R :=
  if includes selected v
  then onChange (filter (fun item => negb (String.eqb item v)) selected)
  else onChange (selected ++ [v]).

Definition handleRemove (v : string) : R :=
  onChange (filter (fun item => negb (String.eqb item v)) selected).

Definition handleSelectAll : R :=
  onChange (map value options).

Definition handleSelectAllLabel : R :=
  if (List.length selected =? 0)%nat
  then onChange (map value options)
  else onChange [].

Definition handleClear : R :=
  onChange [].

End Handlers.

End MultiSelect.

(** ** The table view ([components/table-mode]) *)

Module TableMode.

Inductive Status : Type := active | inactive | warning.

Record NetworkMetric : Type := mkRow {
  id : string;
  interface : string;
  status : Status;
  latency : Q;
  throughput : Q;
  packetLoss : Q;
  bandwidth : Q;
  timestamp : option string;
  ipv4 : option string;
  ipv6 : option string
}.

(** The callback of [metrics.map] in [transformedData]. *)
Definition transformRow (interfaces : list NetworkInterface.t)
    (metric : PerformanceMetric.t) (index : nat) : NetworkMetric :=
  let interfaceInfo :=
    find (fun iface => String.eqb (NetworkInterface.name iface)
                         (PerformanceMetric.interface metric)) interfaces in
  let sent := orZero (PerformanceMetric.packets_sent metric) in
  let recv := orZero (PerformanceMetric.packets_recv metric) in
  let packetLoss := if gt sent 0 then ((sent - recv) / sent * 100)%Q else 0%Q in
  let bandwidth := (orZero (PerformanceMetric.bytes_recv metric) / (1024 * 1024))%Q in
  mkRow
    (showNat index)
    (PerformanceMetric.interface metric)
    active
    (orZero (PerformanceMetric.latency metric))
    (orZero (PerformanceMetric.throughput metric))
    (Math_max 0 packetLoss)
    bandwidth
    (PerformanceMetric.timestamp metric)
    (match interfaceInfo with Some i => NetworkInterface.ipv4 i | None => None end)
    (match interfaceInfo with Some i => NetworkInterface.ipv6 i | None => None end).

Definition transformedData (metrics : list PerformanceMetric.t)
    (interfaces : list NetworkInterface.t) : list NetworkMetric :=
  mapi (transformRow interfaces) metrics.

(** [s && p(s)] on a string that may be missing: the empty string is
    falsy. *)
Definition andThen (s : option string) (p : string -> bool) : bool :=
  match s with
  | Some text => negb (String.eqb text EmptyString) && p text
  | None => false
  end.

(** The search half of the predicate of [filteredData]. *)
Definition matchesSearch (search : string) (row : NetworkMetric) : bool :=
  str_includes (toLowerCase (interface row)) (toLowerCase search)
  || andThen (ipv4 row) (fun s => str_includes s search)
  || andThen (ipv6 row) (fun s => str_includes (toLowerCase s) (toLowerCase search)).

(** The predicate of [transformedData.filter] in [filteredData]. *)
Definition keepRow (selectedInterfaces : list string) (search : string)
    (row : NetworkMetric) : bool :=
  (includes selectedInterfaces (interface row) || (List.length selectedInterfaces =? 0)%nat)
  && matchesSearch search row.

Definition filteredData (transformedData : list NetworkMetric)
    (selectedInterfaces : list string) (search : string) : list NetworkMetric :=
  filter (keepRow selectedInterfaces search) transformedData.

End TableMode.

(** ** Concrete payloads and states used by the examples *)

Module Scenario.

Import MetricsContext.

Definition t10 : string := "2024-01-01T00:00:10.000Z".
Definition t05 : string := "2024-01-01T00:00:05.000Z".

Definition sample (iface ts : string) (latency throughput : Q) : PerformanceMetric.t :=
  PerformanceMetric.mk iface (Some ts) (Some latency) (Some throughput)
    (Some 2048%Q) (Some 1048576%Q) (Some 100%Q) (Some 98%Q).

Definition sampleJson (iface ts : string) (latency throughput : Q) : Json :=
  JObj [ ("interface", JStr iface); ("timestamp", JStr ts);
         ("latency", JNum latency); ("throughput", JNum throughput);
         ("bytes_sent", JNum 2048); ("bytes_recv", JNum 1048576);
         ("packets_sent", JNum 100); ("packets_recv", JNum 98) ].

Definition eth0 : NetworkInterface.t := NetworkInterface.mk "eth0" (Some "10.0.0.2") None.
Definition wlan0 : NetworkInterface.t := NetworkInterface.mk "wlan0" (Some "10.0.0.3") None.

Definition eth0Json : Json := JObj [ ("name", JStr "eth0"); ("ipv4", JStr "10.0.0.2") ].
Definition wlan0Json : Json := JObj [ ("name", JStr "wlan0"); ("ipv4", JStr "10.0.0.3") ].

(** S1, observed at t = 10, and S2, observed at t = 5. *)
Definition S1 : AllMetrics.t :=
  AllMetrics.mk [sample "eth0" t10 10 100; sample "wlan0" t10 30 50] [eth0; wlan0] (Some t10).

Definition S2 : AllMetrics.t :=
  AllMetrics.mk [sample "eth0" t05 20 90; sample "wlan0" t05 40 40] [eth0; wlan0] (Some t05).

Definition S1Json : Json :=
  JObj [ ("performance_metrics",
          JArr [sampleJson "eth0" t10 10 100; sampleJson "wlan0" t10 30 50]);
         ("interfaces", JArr [eth0Json; wlan0Json]);
         ("timestamp", JStr t10) ].

Definition S2Json : Json :=
  JObj [ ("performance_metrics",
          JArr [sampleJson "eth0" t05 20 90; sampleJson "wlan0" t05 40 40]);
         ("interfaces", JArr [eth0Json; wlan0Json]);
         ("timestamp", JStr t05) ].

(** Current-format messages carrying S1 and S2. *)
Definition push1 : Json :=
  JObj [ ("current_data", S1Json); ("historical_data", JArr [S1Json]) ].

Definition push2 : Json :=
  JObj [ ("current_data", S2Json); ("historical_data", JArr [S2Json]) ].

(** The legacy-format message of the end-to-end scenario. *)
Definition legacySample : PerformanceMetric.t :=
  PerformanceMetric.mk "eth0" None (Some 12.5%Q) (Some 80%Q) None
    (Some 1048576%Q) (Some 100%Q) (Some 98%Q).

Definition legacyPush : Json :=
  JObj [ ("performance_metrics",
          JArr [ JObj [ ("interface", JStr "eth0"); ("latency", JNum 12.5);
                        ("throughput", JNum 80); ("packets_sent", JNum 100);
                        ("packets_recv", JNum 98); ("bytes_recv", JNum 1048576) ] ]);
         ("interfaces", JArr [eth0Json]) ].

(** A second legacy message, for another interface. *)
Definition legacySample' : PerformanceMetric.t :=
  PerformanceMetric.mk "wlan0" None (Some 30%Q) (Some 50%Q) None
    (Some 2097152%Q) (Some 200%Q) (Some 200%Q).

Definition legacyPush' : Json :=
  JObj [ ("performance_metrics",
          JArr [ JObj [ ("interface", JStr "wlan0"); ("latency", JNum 30);
                        ("throughput", JNum 50); ("packets_sent", JNum 200);
                        ("packets_recv", JNum 200); ("bytes_recv", JNum 2097152) ] ]);
         ("interfaces", JArr [wlan0Json]) ].

(** The malformed message [{foo: 1}]. *)
Definition malformed : Json := JObj [ ("foo", JNum 1) ].

(** The store right after mounting, and a store in which the operator
    has narrowed the selection to eth0. *)
Definition mounted : World := mkWorld initialState [].

Definition narrowed : World :=
  mkWorld
    (mkState (AllMetrics.performance_metrics S1) (AllMetrics.interfaces S1)
       (Api.convertHistoricalToChartData [S1])
       (LatestMetric.mk 10 100 2 1) 10 100
       ["eth0"; "wlan0"] ["eth0"] false None)
    [].

End Scenario.

(** ** What a message carries

    The typed content of a message that passes one of the two guards of
    the handler, and the two wire shapes as the spec words them. *)

Module Shape.

Import MetricsContext.

(** [data] passes the first guard and reads as [currentData] with the
    history [historical_data]. *)
Definition carriesCurrent (data : Json) (currentData : AllMetrics.t)
    (historical_data : list AllMetrics.t) : Prop :=
  isCurrentFormat data = true
  /\ option_map Typed.allMetrics (prop "current_data" (Some data)) = Some (Some currentData)
  /\ Typed.array Typed.allMetrics (prop "historical_data" (Some data)) = Some historical_data.

(** [data] fails the first guard, passes the second and reads as the
    samples [performance_metrics] and the interfaces [interfaces]. *)
Definition carriesLegacy (data : Json) (performance_metrics : list PerformanceMetric.t)
    (interfaces : list NetworkInterface.t) : Prop :=
  isCurrentFormat data = false
  /\ isLegacyFormat data = true
  /\ Typed.array Typed.performanceMetric (prop "performance_metrics" (Some data))
     = Some performance_metrics
  /\ interfacesOrEmpty data = Some interfaces.

(** [data], received at [now], is recognised by the handler and carries
    [snapshot] together with the history [history]: a current-format
    message brings both; a legacy message is stamped with the receipt
    time and is its own history. *)
Definition carries (now : string) (data : Json) (snapshot : AllMetrics.t)
    (history : list AllMetrics.t) : Prop :=
  carriesCurrent data snapshot history
  \/ (exists performance_metrics interfaces,
        carriesLegacy data performance_metrics interfaces
        /\ snapshot = AllMetrics.mk performance_metrics interfaces (Some now)
        /\ history = [snapshot]).

(** The reconciliation rule in the spec's words (section 4.5): all of
    [available] when it is non-empty and [selected] is empty,
    [selected] otherwise. *)
Definition reconcile (available selected : list string) : list string :=
  match available, selected with
  | _ :: _, [] => available
  | _, _ => selected
  end.

(** The current shape in the spec's words: an object carrying
    [current_data] and [historical_data]. *)
Definition matchesCurrentShape (data : Json) : Prop :=
  prop "current_data" (Some data) <> undefined
  /\ prop "historical_data" (Some data) <> undefined.

(** The legacy shape in the spec's words: an object carrying a
    [performance_metrics] array. *)
Definition matchesLegacyShape (data : Json) : Prop :=
  isArray (prop "performance_metrics" (Some data)) = true.

(** The latest view of the store: latest samples, interface set,
    available names and latest-value KPIs. *)
Definition latestView (s : State)
  : list PerformanceMetric.t * list NetworkInterface.t * list string * LatestMetric.t :=
  (metrics s, interfaces s, availableInterfaces s, latestMetrics s).

(** The latest view that a snapshot gives under a selection. *)
Definition viewOf (snapshot : AllMetrics.t) (selected : list string)
  : list PerformanceMetric.t * list NetworkInterface.t * list string * LatestMetric.t :=
  (AllMetrics.performance_metrics snapshot,
   AllMetrics.interfaces snapshot,
   map NetworkInterface.name (AllMetrics.interfaces snapshot),
   Api.latestMetric (Api.getLatestMetrics (AllMetrics.performance_metrics snapshot) selected)).

(** The selection a push leaves behind: the handler selects every
    interface of the message when the selection it captured is empty. *)
Definition selectionAfterPush (captured : list string) (interfaceNames current : list string)
  : list string :=
  if (List.length captured =? 0)%nat && (0 <? List.length interfaceNames)%nat
  then interfaceNames
  else current.

(** The state a recognised message leaves behind. *)
Definition pushed (captured : list string) (snapshot : AllMetrics.t)
    (history : list AllMetrics.t) (s : State) : State :=
  let r := Api.getLatestMetrics (AllMetrics.performance_metrics snapshot) captured in
  let names := map NetworkInterface.name (AllMetrics.interfaces snapshot) in
  mkState
    (AllMetrics.performance_metrics snapshot)
    (AllMetrics.interfaces snapshot)
    (Api.convertHistoricalToChartData history)
    (Api.latestMetric r) (Api.avgLatency r) (Api.avgThroughput r)
    names
    (selectionAfterPush captured names (selectedInterfaces s))
    (loading s) (error s).


(** The state a completed pull leaves behind. *)
Definition pulled (captured : list string) (snapshot : AllMetrics.t) (s : State) : State :=
  let r := Api.getLatestMetrics (AllMetrics.performance_metrics snapshot) captured in
  mkState
    (AllMetrics.performance_metrics snapshot)
    (AllMetrics.interfaces snapshot)
    (Api.convertHistoricalToChartData [snapshot])
    (Api.latestMetric r) (Api.avgLatency r) (Api.avgThroughput r)
    (map NetworkInterface.name (AllMetrics.interfaces snapshot))
    (selectedInterfaces s)
    false None.

End Shape.

(** ** The dashboard ([components/dashboard]) *)

Module Dashboard.

(** [a < b] on numbers. *)
Definition lt (a b : Q) : bool := negb (Qle_bool b a).

(** The badge under "Current Latency":
    [latency < 50 ? "Optimal" : latency < 10 ? "Good" : "High"]. *)
Definition latencyBadge (latency : Q) : string :=
  if lt latency 50 then "Optimal" else if lt latency 10 then "Good" else "High".

(** The badge under "Throughput":
    [throughput > 100 ? "High" : throughput > 50 ? "Medium" : "Low"]. *)
Definition throughputBadge (throughput : Q) : string :=
  if gt throughput 100 then "High" else if gt throughput 50 then "Medium" else "Low".

(** The badge under "Packet Loss":
    [packetLoss < 0.1 ? "Excellent" : packetLoss < 1 ? "Good" : "High"]. *)
Definition packetLossBadge (packetLoss : Q) : string :=
  if lt packetLoss 0.1 then "Excellent" else if lt packetLoss 1 then "Good" else "High".

(** What the component returns: the loading line, the error line, or
    the dashboard itself. *)
Inductive Screen : Type :=
| LoadingScreen
| ErrorScreen (message : string)
| Panels (latency throughput packetLoss : string).

(** [error] is tested for truthiness: the empty message counts as no
    error. *)
Definition render (s : MetricsContext.State) : Screen :=
  if MetricsContext.loading s then LoadingScreen
  else
    match MetricsContext.error s with
    | Some message =>
        if String.eqb message EmptyString
        then Panels
               (latencyBadge (LatestMetric.latency (MetricsContext.latestMetrics s)))
               (throughputBadge (LatestMetric.throughput (MetricsContext.latestMetrics s)))
               (packetLossBadge (LatestMetric.packetLoss (MetricsContext.latestMetrics s)))
        else ErrorScreen message
    | None =>
        Panels
          (latencyBadge (LatestMetric.latency (MetricsContext.latestMetrics s)))
          (throughputBadge (LatestMetric.throughput (MetricsContext.latestMetrics s)))
          (packetLossBadge (LatestMetric.packetLoss (MetricsContext.latestMetrics s)))
    end.

End Dashboard.

(** ** What the selection widget shows on its button *)

Module MultiSelectTrigger.

Import MultiSelect.

Inductive Trigger : Type :=
| Placeholder (text : string)
| AllLabel (name : string)
| Badges (labels : list string).

(** [option?.label || value] for the badge of a selected value. *)
Definition badgeLabel (options : list MultiSelectOption) (v : string) : string :=
  match find (fun opt => String.eqb (value opt) v) options with
  | Some opt => if String.eqb (label opt) EmptyString then v else label opt
  | None => v
  end.

(** The content of the trigger button: the placeholder when nothing is
    selected, the label "All ..." with its clear button when as many
    values are selected as there are options, one badge per selected
    value otherwise. *)
Definition trigger (options : list MultiSelectOption) (selected : list string)
    (placeholder : string) : Trigger :=
  if (List.length selected =? 0)%nat then Placeholder placeholder
  else if (List.length selected =? List.length options)%nat then
    AllLabel (match options with
              | [only] => label only
              | _ => "Options"
              end)
  else Badges (map (badgeLabel options) selected).

End MultiSelectTrigger.

(** ** The log view ([components/logging-section]) *)

Module LoggingSection.

Record LogQueryParams : Type := mkQuery {
  start_time : option string;
  end_time : option string;
  log_level : option string;
  metric_type : option string;
  search_term : option string
}.

Inductive ExportFormat : Type := json | csv.

Section Component.

(** [Date] with its [toISOString], and the [LogEntry] of [lib/api.ts];
    the component only stores and forwards their values. *)
Variable Date : Type.
Variable toISOString : Date -> string.
Variable LogEntry : Type.

(** The [useState] cells of [LoggingSection]. *)
Record State : Type := mkState {
  startTime : option Date;
  endTime : option Date;
  logLevels : list string;
  availableLogLevels : list string;
  metricTypes : list string;
  availableMetricTypes : list string;
  searchTerm : string;
  logs : list LogEntry;
  loading : bool;
  error : option string;
  expandedLogId : option string;
  exportLoading : bool
}.

(** The initial values given to [useState]. *)
Definition initialState : State :=
  mkState None None [] [] [] [] EmptyString [] false None None false.

Definition setLogs (v : list LogEntry) (s : State) : State :=
  mkState (startTime s) (endTime s) (logLevels s) (availableLogLevels s) (metricTypes s)
    (availableMetricTypes s) (searchTerm s) v (loading s) (error s) (expandedLogId s)
    (exportLoading s).

Definition setLoading (v : bool) (s : State) : State :=
  mkState (startTime s) (endTime s) (logLevels s) (availableLogLevels s) (metricTypes s)
    (availableMetricTypes s) (searchTerm s) (logs s) v (error s) (expandedLogId s)
    (exportLoading s).

Definition setError (v : option string) (s : State) : State :=
  mkState (startTime s) (endTime s) (logLevels s) (availableLogLevels s) (metricTypes s)
    (availableMetricTypes s) (searchTerm s) (logs s) (loading s) v (expandedLogId s)
    (exportLoading s).

Definition setExpandedLogId (v : option string) (s : State) : State :=
  mkState (startTime s) (endTime s) (logLevels s) (availableLogLevels s) (metricTypes s)
    (availableMetricTypes s) (searchTerm s) (logs s) (loading s) (error s) v
    (exportLoading s).

Definition setExportLoading (v : bool) (s : State) : State :=
  mkState (startTime s) (endTime s) (logLevels s) (availableLogLevels s) (metricTypes s)
    (availableMetricTypes s) (searchTerm s) (logs s) (loading s) (error s) (expandedLogId s)
    v.

(** [l.length > 0 ? l.join(",") : undefined]. *)
Definition joinOrUndefined (l : list string) : option string :=
  if (0 <? List.length l)%nat then Some (String.concat "," l) else None.

(** The query both [fetchFilteredLogs] and [handleExport] build from
    the filters of the render they were created in. *)
Definition queryParams (s : State) : LogQueryParams :=
  mkQuery
    (option_map toISOString (startTime s))
    (option_map toISOString (endTime s))
    (joinOrUndefined (logLevels s))
    (joinOrUndefined (metricTypes s))
    (if String.eqb (searchTerm s) EmptyString then None else Some (searchTerm s)).

(** [fetchFilteredLogs], run to completion; [fetchLogs] answers [None]
    when its promise rejects.  The result is the new state and the
    lines written to the console. *)
Definition fetchFilteredLogs (fetchLogs : LogQueryParams -> option (list LogEntry))
    (s : State) : State * list string :=
  let s1 := setError None (setLoading true s) in
  match fetchLogs (queryParams s) with
  | Some fetchedLogs => (setLoading false (setLogs fetchedLogs s1), [])
  | None =>
      (setLoading false (setError (Some "Failed to fetch logs") s1),
       ["Error fetching logs:"])
  end.

(** [handleExport]; [exportLogs] answers [false] when its promise
    rejects. *)
Definition handleExport (exportLogs : LogQueryParams -> ExportFormat -> bool)
    (format : ExportFormat) (s : State) : State * list string :=
  let s1 := setExportLoading true s in
  if exportLogs (queryParams s) format
  then (setExportLoading false s1, [])
  else (setExportLoading false (setError (Some "Failed to export logs") s1),
        ["Error exporting logs:"]).

(** [toggleLogExpansion]. *)
Definition toggleLogExpansion (logId : string) (s : State) : State :=
  setExpandedLogId
    (match expandedLogId s with
     | Some current => if String.eqb current logId then None else Some logId
     | None => Some logId
     end)
    s.

End Component.

End LoggingSection.

(** * Properties *)

Import MetricsContext Shape.
Local Open Scope eff_scope.

(** ** Outcome of the push handler, branch by branch *)

Lemma handle_current (captured : list string) (now : string) (data : Json)
    (currentData : AllMetrics.t) (historical_data : list AllMetrics.t) (w : World) :
  carriesCurrent data currentData historical_data ->
  handleWebSocketUpdate captured now data w
  = Some (tt, mkWorld (pushed captured currentData historical_data (state w)) (console w)).
Proof.
  intros (Hguard & Hcur & Hhist).
  unfold handleWebSocketUpdate. rewrite Hguard, Hcur, Hhist.
  unfold pushed, selectionAfterPush.
  destruct w as [s c].
  destruct ((List.length captured =? 0)%nat
            && (0 <? List.length (map NetworkInterface.name (AllMetrics.interfaces currentData)))%nat);
    reflexivity.
Qed.

Lemma handle_legacy (captured : list string) (now : string) (data : Json)
    (performance_metrics : list PerformanceMetric.t) (ifs : list NetworkInterface.t)
    (w : World) :
  carriesLegacy data performance_metrics ifs ->
  handleWebSocketUpdate captured now data w
  = Some (tt, mkWorld
                (pushed captured (AllMetrics.mk performance_metrics ifs (Some now))
                   [AllMetrics.mk performance_metrics ifs (Some now)] (state w))
                (console w)).
Proof.
  intros (Hnot & Hguard & Hpm & Hifs).
  unfold handleWebSocketUpdate. rewrite Hnot, Hguard, Hpm, Hifs.
  unfold pushed, selectionAfterPush.
  cbn [AllMetrics.interfaces AllMetrics.performance_metrics].
  destruct w as [s c].
  destruct ((List.length captured =? 0)%nat
            && (0 <? List.length (map NetworkInterface.name ifs))%nat);
    reflexivity.
Qed.

Lemma handle_recognised (captured : list string) (now : string) (data : Json)
    (snapshot : AllMetrics.t) (history : list AllMetrics.t) (w : World) :
  carries now data snapshot history ->
  handleWebSocketUpdate captured now data w
  = Some (tt, mkWorld (pushed captured snapshot history (state w)) (console w)).
Proof.
  intros [Hcur | (pm & ifs & Hleg & -> & ->)].
  - now apply handle_current.
  - now apply handle_legacy.
Qed.

Lemma handle_unrecognised (captured : list string) (now : string) (data : Json) (w : World) :
  isCurrentFormat data = false ->
  isLegacyFormat data = false ->
  handleWebSocketUpdate captured now data w
  = Some (tt, mkWorld (state w) (console w ++ [Warn "Invalid WebSocket data format:" data])).
Proof.
  intros H1 H2. unfold handleWebSocketUpdate. rewrite H1, H2. reflexivity.
Qed.

Lemma fetch_fulfilled (captured : list string) (snapshot : AllMetrics.t) (w : World) :
  fetchData captured (Some snapshot) w
  = Some (tt, mkWorld (pulled captured snapshot (state w)) (console w)).
Proof. destruct w as [s c]. reflexivity. Qed.

Lemma fetch_rejected (captured : list string) (w : World) :
  fetchData captured None w
  = Some (tt, mkWorld
                (mkState [] [] [] (LatestMetric.mk 0 0 0 0) 0 0 []
                   (selectedInterfaces (state w)) false
                   (Some "Failed to fetch network metrics"))
                (console w ++ [Error "Error fetching metrics:"])).
Proof. destruct w as [s c]. reflexivity. Qed.

Lemma truthy_defined (v : Value) : truthy v = true -> v <> undefined.
Proof. destruct v; [discriminate | intro H; discriminate H]. Qed.

Lemma current_guard_matches (data : Json) :
  isCurrentFormat data = true -> matchesCurrentShape data.
Proof.
  unfold isCurrentFormat, matchesCurrentShape. intro H.
  apply andb_true_iff in H as [H Hhist]. apply andb_true_iff in H as [_ Hcur].
  split; apply truthy_defined; assumption.
Qed.

Lemma legacy_guard_matches (data : Json) :
  isLegacyFormat data = true -> matchesLegacyShape data.
Proof.
  unfold isLegacyFormat, matchesLegacyShape. intro H.
  apply andb_true_iff in H as [_ H]. exact H.
Qed.

(** ** The scenario messages are recognised *)

Import Scenario.

Lemma push1_carries (now : string) : carries now push1 S1 [S1].
Proof. left. repeat split; reflexivity. Qed.

Lemma push2_carries (now : string) : carries now push2 S2 [S2].
Proof. left. repeat split; reflexivity. Qed.

Lemma legacyPush_carries (now : string) :
  carries now legacyPush
    (AllMetrics.mk [legacySample] [eth0] (Some now))
    [AllMetrics.mk [legacySample] [eth0] (Some now)].
Proof. right. exists [legacySample], [eth0]. repeat split; reflexivity. Qed.

Lemma legacyPush'_carries (now : string) :
  carries now legacyPush'
    (AllMetrics.mk [legacySample'] [wlan0] (Some now))
    [AllMetrics.mk [legacySample'] [wlan0] (Some now)].
Proof. right. exists [legacySample'], [wlan0]. repeat split; reflexivity. Qed.

(** Running two handlers in a row. *)
Lemma exec_seq (m k : Eff unit) (w w1 : World) :
  m w = Some (tt, w1) ->
  exec (m ;; k) w = exec k w1.
Proof. intro H. unfold exec, bind. rewrite H. reflexivity. Qed.

Lemma exec_value (m : Eff unit) (w w1 : World) :
  m w = Some (tt, w1) -> exec m w = Some w1.
Proof. intro H. unfold exec. rewrite H. reflexivity. Qed.

(** ** Ordering of updates *)

(** Claim C1, as stated, fails.  S1 (t = 10) is pushed, then S2
    (t = 5 < 10): afterwards the latest samples, the interface set and
    the latest-value KPIs are those of S2, and they are not those of S1
    under any selection. *)
Lemma out_of_order_push_rolls_latest_view_back :
  carries t10 push1 S1 [S1]
  /\ carries t10 push2 S2 [S2]
  /\ AllMetrics.timestamp S1 = Some t10
  /\ AllMetrics.timestamp S2 = Some t05
  /\ (t05 <? t10)%string = true
  /\ exists w',
       exec (subscribedHandler t10 push1 ;; subscribedHandler t10 push2) mounted = Some w'
       /\ latestView (state w') = viewOf S2 []
       /\ forall selected, latestView (state w') <> viewOf S1 selected.
Proof.
  split; [apply push1_carries|]. split; [apply push2_carries|].
  do 3 (split; [reflexivity|]).
  eexists. split.
  - unfold subscribedHandler.
    rewrite (exec_seq _ _ _ _ (handle_recognised _ _ _ _ _ _ (push1_carries t10))).
    apply exec_value. apply (handle_recognised _ _ _ _ _ _ (push2_carries t10)).
  - split; [reflexivity|].
    intros selected H.
    apply (f_equal (fun v => map PerformanceMetric.latency (fst (fst (fst v))))) in H.
    vm_compute in H. discriminate H.
Qed.

(** Claim C1, amended: the store keeps no last-applied timestamp.
    After two recognised messages pushed in a row the latest view is
    that of the second one, whatever the two timestamps are; and a pull
    that completes after a push installs the pulled snapshot. *)
Theorem latest_view_reflects_last_delivery
    (captured : list string) (now1 now2 : string) (data1 data2 : Json)
    (snapshot1 snapshot2 : AllMetrics.t) (history1 history2 : list AllMetrics.t)
    (w : World) :
  carries now1 data1 snapshot1 history1 ->
  carries now2 data2 snapshot2 history2 ->
  (exists w',
      exec (handleWebSocketUpdate captured now1 data1 ;;
            handleWebSocketUpdate captured now2 data2) w = Some w'
      /\ latestView (state w') = viewOf snapshot2 captured)
  /\ (exists w',
        exec (handleWebSocketUpdate captured now1 data1 ;;
              fetchData captured (Some snapshot2)) w = Some w'
        /\ latestView (state w') = viewOf snapshot2 captured).
Proof.
  intros H1 H2. split.
  - eexists. split.
    + rewrite (exec_seq _ _ _ _ (handle_recognised captured _ _ _ _ w H1)).
      apply exec_value. apply (handle_recognised _ _ _ _ _ _ H2).
    + reflexivity.
  - eexists. split.
    + rewrite (exec_seq _ _ _ _ (handle_recognised captured _ _ _ _ w H1)).
      apply exec_value. apply fetch_fulfilled.
    + reflexivity.
Qed.

Lemma latest_view_reflects_last_delivery_witness :
  carries t10 push1 S1 [S1]
  /\ carries t10 push2 S2 [S2]
  /\ (exists w',
        exec (handleWebSocketUpdate [] t10 push1 ;;
              handleWebSocketUpdate [] t10 push2) mounted = Some w'
        /\ latestView (state w') = viewOf S2 [])
  /\ (exists w',
        exec (handleWebSocketUpdate [] t10 push1 ;;
              fetchData [] (Some S2)) mounted = Some w'
        /\ latestView (state w') = viewOf S2 []).
Proof.
  split; [apply push1_carries|]. split; [apply push2_carries|].
  apply (latest_view_reflects_last_delivery [] t10 t10 push1 push2 S1 S2 [S1] [S2] mounted).
  - left. repeat split; reflexivity.
  - left. repeat split; reflexivity.
Defined.

(** ** The chart series *)

(** Claim C2, as stated, fails: the store retains no history.  Two
    legacy messages are accepted one after the other, yet the series
    has a single point and the point of the first message is gone; and
    after S1 and the out-of-order S2, each pushed with its own
    snapshot as history, the series holds the point of S2 only. *)
Lemma series_forgets_earlier_messages :
  (exists w',
      exec (subscribedHandler t05 legacyPush ;; subscribedHandler t10 legacyPush') mounted
      = Some w'
      /\ List.length (chartData (state w')) = 1%nat
      /\ forall point,
           In point (Api.convertHistoricalToChartData
                       [AllMetrics.mk [legacySample] [eth0] (Some t05)]) ->
           ~ In point (chartData (state w')))
  /\ (exists w',
        exec (subscribedHandler t10 push1 ;; subscribedHandler t10 push2) mounted = Some w'
        /\ List.length (chartData (state w')) = 1%nat
        /\ forall point,
             In point (Api.convertHistoricalToChartData [S1]) ->
             ~ In point (chartData (state w'))).
Proof.
  split.
  - eexists. split; [|split].
    + unfold subscribedHandler.
      rewrite (exec_seq _ _ _ _ (handle_recognised _ _ _ _ _ _ (legacyPush_carries t05))).
      apply exec_value. apply (handle_recognised _ _ _ _ _ _ (legacyPush'_carries t10)).
    + reflexivity.
    + intros point [<- | []] [H | []].
      apply (f_equal ChartDataPoint.time) in H. vm_compute in H. discriminate H.
  - eexists. split; [|split].
    + unfold subscribedHandler.
      rewrite (exec_seq _ _ _ _ (handle_recognised _ _ _ _ _ _ (push1_carries t10))).
      apply exec_value. apply (handle_recognised _ _ _ _ _ _ (push2_carries t10)).
    + reflexivity.
    + intros point [<- | []] [H | []].
      apply (f_equal ChartDataPoint.time) in H. vm_compute in H. discriminate H.
Qed.

(** Claim C2, amended: after every recognised message the chart series
    is rebuilt from the history that this message carries (its
    [historical_data], or the single received snapshot for a legacy
    message) and holds one point per entry of that history; the series
    built by earlier messages is replaced. *)
Theorem series_rebuilt_from_message_history
    (captured : list string) (now : string) (data : Json)
    (snapshot : AllMetrics.t) (history : list AllMetrics.t) (w : World) :
  carries now data snapshot history ->
  exists w',
    exec (handleWebSocketUpdate captured now data) w = Some w'
    /\ chartData (state w') = Api.convertHistoricalToChartData history
    /\ List.length (chartData (state w')) = List.length history.
Proof.
  intro H. eexists. split; [|split].
  - apply exec_value. apply (handle_recognised _ _ _ _ _ _ H).
  - reflexivity.
  - cbn. unfold Api.convertHistoricalToChartData. apply length_map.
Qed.

Lemma series_rebuilt_from_message_history_witness :
  carries t10 legacyPush'
    (AllMetrics.mk [legacySample'] [wlan0] (Some t10))
    [AllMetrics.mk [legacySample'] [wlan0] (Some t10)]
  /\ exists w',
       exec (handleWebSocketUpdate [] t10 legacyPush') narrowed = Some w'
       /\ chartData (state w')
          = Api.convertHistoricalToChartData
              [AllMetrics.mk [legacySample'] [wlan0] (Some t10)]
       /\ List.length (chartData (state w')) = 1%nat.
Proof.
  split; [apply legacyPush'_carries|].
  apply (series_rebuilt_from_message_history [] t10 legacyPush'
           (AllMetrics.mk [legacySample'] [wlan0] (Some t10))
           [AllMetrics.mk [legacySample'] [wlan0] (Some t10)] narrowed).
  right. exists [legacySample'], [wlan0]. repeat split; reflexivity.
Defined.

(** ** Selection *)

(** Claim C3, as stated, fails for the empty selection: the operator
    clears the selection while two interfaces are available, and the
    next reconciliation selects both again. *)
Lemma cleared_selection_is_refilled :
  exists w',
    exec (MultiSelect.handleClear setSelectedInterfaces ;; reconcileEffect) narrowed = Some w'
    /\ availableInterfaces (state w') = availableInterfaces (state narrowed)
    /\ selectedInterfaces (state w') = ["eth0"; "wlan0"]
    /\ selectedInterfaces (state w') <> [].
Proof.
  eexists. split; [vm_compute; reflexivity|]. cbn. repeat split. discriminate.
Qed.

(** Claim C3, amended: a non-empty selection set from the UI survives a
    later reconciliation unchanged; an empty one is replaced by the
    available interfaces (and so stays empty only when none is
    available).  The available set is untouched either way. *)
Theorem explicit_selection_after_reconciliation (explicit : list string) (w : World) :
  exists w',
    exec (setSelectedInterfaces explicit ;; reconcileEffect) w = Some w'
    /\ availableInterfaces (state w') = availableInterfaces (state w)
    /\ (explicit <> [] -> selectedInterfaces (state w') = explicit)
    /\ (explicit = [] -> selectedInterfaces (state w') = availableInterfaces (state w)).
Proof.
  destruct w as [s c]. unfold exec, bind, setSelectedInterfaces, modify, reconcileEffect,
    getState, bind, ret. cbn.
  destruct (availableInterfaces s) as [|a l] eqn:Ha, explicit as [|e l']; cbn;
    rewrite ?Ha; eexists; (split; [reflexivity|]); cbn; rewrite ?Ha;
    repeat split; congruence.
Qed.

Lemma explicit_selection_after_reconciliation_witness :
  ["eth0"] <> []
  /\ exists w',
       exec (setSelectedInterfaces ["eth0"] ;; reconcileEffect) narrowed = Some w'
       /\ selectedInterfaces (state w') = ["eth0"].
Proof.
  split; [discriminate|].
  destruct (explicit_selection_after_reconciliation ["eth0"] narrowed)
    as (w' & Hrun & _ & Hkeep & _).
  exists w'. split; [exact Hrun|]. apply Hkeep. discriminate.
Defined.

(** ** Aggregates on a push *)

(** The KPIs written by the handler are computed under the selection
    the closure captured; the selection held by the store when the
    message arrives plays no part. *)
Lemma push_kpis_use_captured_selection
    (captured : list string) (now : string) (data : Json)
    (snapshot : AllMetrics.t) (history : list AllMetrics.t) (w : World) :
  carries now data snapshot history ->
  exists w',
    exec (handleWebSocketUpdate captured now data) w = Some w'
    /\ latestMetrics (state w')
       = Api.latestMetric
           (Api.getLatestMetrics (AllMetrics.performance_metrics snapshot) captured)
    /\ avgLatency (state w')
       = Api.avgLatency
           (Api.getLatestMetrics (AllMetrics.performance_metrics snapshot) captured)
    /\ avgThroughput (state w')
       = Api.avgThroughput
           (Api.getLatestMetrics (AllMetrics.performance_metrics snapshot) captured).
Proof.
  intro H. eexists. split.
  - apply exec_value. apply (handle_recognised _ _ _ _ _ _ H).
  - repeat split.
Qed.

(** Claim C4 against the code.  The operator has narrowed the selection
    to eth0; S2 is pushed.  The subscribed handler computes the KPIs
    under the selection it captured at mount, the empty one, so they
    are all 0, whereas over the samples of eth0, the selection current
    at that moment, latency is 20 and throughput 90.  The same stale
    value makes the handler select every interface again. *)
Lemma push_kpis_ignore_current_selection :
  selectedInterfaces (state narrowed) = ["eth0"]
  /\ carries t10 push2 S2 [S2]
  /\ exists w',
       exec (subscribedHandler t10 push2) narrowed = Some w'
       /\ latestMetrics (state w') = LatestMetric.zero
       /\ avgLatency (state w') = 0%Q
       /\ avgThroughput (state w') = 0%Q
       /\ (LatestMetric.latency
             (Api.latestMetric
                (Api.getLatestMetrics (AllMetrics.performance_metrics S2) ["eth0"])) == 20)%Q
       /\ (LatestMetric.throughput
             (Api.latestMetric
                (Api.getLatestMetrics (AllMetrics.performance_metrics S2) ["eth0"])) == 90)%Q
       /\ (Api.avgLatency
             (Api.getLatestMetrics (AllMetrics.performance_metrics S2) ["eth0"]) == 20)%Q
       /\ selectedInterfaces (state w') = ["eth0"; "wlan0"].
Proof.
  split; [reflexivity|]. split; [apply push2_carries|].
  eexists. split.
  - apply exec_value. apply (handle_recognised _ _ _ _ _ _ (push2_carries t10)).
  - repeat split; vm_compute; reflexivity.
Qed.

(** ** Unrecognised messages *)

(** Claim C5.  A message that matches neither wire shape only adds one
    warning to the console: the handler returns normally and the whole
    state (metrics, interfaces, chart series, KPIs, available and
    selected interfaces, loading and error flags) is as before. *)
Theorem unrecognised_message_leaves_state
    (captured : list string) (now : string) (data : Json) (w : World) :
  ~ matchesCurrentShape data ->
  ~ matchesLegacyShape data ->
  exists w',
    exec (handleWebSocketUpdate captured now data) w = Some w'
    /\ state w' = state w
    /\ console w' = console w ++ [Warn "Invalid WebSocket data format:" data].
Proof.
  intros Hcur Hleg.
  assert (H1 : isCurrentFormat data = false).
  { destruct (isCurrentFormat data) eqn:E; [|reflexivity].
    exfalso. apply Hcur. now apply current_guard_matches. }
  assert (H2 : isLegacyFormat data = false).
  { destruct (isLegacyFormat data) eqn:E; [|reflexivity].
    exfalso. apply Hleg. now apply legacy_guard_matches. }
  eexists. split.
  - apply exec_value. now apply handle_unrecognised.
  - split; reflexivity.
Qed.

Lemma unrecognised_message_leaves_state_witness :
  ~ matchesCurrentShape malformed
  /\ ~ matchesLegacyShape malformed
  /\ exists w',
       exec (handleWebSocketUpdate [] t10 malformed) narrowed = Some w'
       /\ state w' = state narrowed
       /\ console w' = [Warn "Invalid WebSocket data format:" malformed].
Proof.
  assert (Hcur : ~ matchesCurrentShape malformed).
  { intros [H _]. apply H. reflexivity. }
  assert (Hleg : ~ matchesLegacyShape malformed).
  { intro H. discriminate H. }
  split; [exact Hcur|]. split; [exact Hleg|].
  exact (unrecognised_message_leaves_state [] t10 malformed narrowed Hcur Hleg).
Defined.

(** ** Derived per-sample fields *)

Lemma gt_true (a b : Q) : gt a b = true <-> (b < a)%Q.
Proof.
  unfold gt. rewrite negb_true_iff. split.
  - intro H. apply Qnot_le_lt. intro Hle. apply Qle_bool_iff in Hle. congruence.
  - intro H. destruct (Qle_bool a b) eqn:E; [|reflexivity].
    apply Qle_bool_iff in E. exfalso. apply (Qlt_not_le _ _ H E).
Qed.

Lemma gt_false (a b : Q) : gt a b = false <-> (a <= b)%Q.
Proof.
  unfold gt. rewrite negb_false_iff. apply Qle_bool_iff.
Qed.





(** The end-to-end sample: 100 packets sent, 98 received and one
    mebibyte received give a loss of 2 percent and a bandwidth of 1. *)
Example end_to_end_row :
  (TableMode.packetLoss (TableMode.transformRow [eth0] legacySample 0) == 2)%Q
  /\ (TableMode.bandwidth (TableMode.transformRow [eth0] legacySample 0) == 1)%Q.
Proof. split; vm_compute; reflexivity. Qed.

(** ** Selection reconciliation *)

Lemma length_zero_nil {A : Type} (l : list A) : (List.length l =? 0)%nat = true <-> l = [].
Proof. destruct l; cbn; split; congruence. Qed.

(** Claim C7.  The reconciliation effect leaves as selection the value
    the rule of section 4.5 gives: the available interfaces in full when
    there are some and nothing is selected, and the selection as it was
    in every other case, stale names included.  Nothing else changes. *)
Theorem reconciliation_rule (w : World) :
  exists w',
    exec reconcileEffect w = Some w'
    /\ selectedInterfaces (state w')
       = reconcile (availableInterfaces (state w)) (selectedInterfaces (state w))
    /\ (availableInterfaces (state w) <> [] ->
        selectedInterfaces (state w) = [] ->
        selectedInterfaces (state w') = availableInterfaces (state w))
    /\ (~ (availableInterfaces (state w) <> [] /\ selectedInterfaces (state w) = []) ->
        selectedInterfaces (state w') = selectedInterfaces (state w))
    /\ availableInterfaces (state w') = availableInterfaces (state w)
    /\ latestView (state w') = latestView (state w)
    /\ chartData (state w') = chartData (state w)
    /\ console w' = console w.
Proof.
  destruct w as [[m i cd lm al at' [|a av] [|e sel] ld er] c];
    (eexists; split; [vm_compute; reflexivity|]);
    cbn; repeat split; try congruence.
  intros H. exfalso. apply H. split; congruence.
Qed.

Lemma reconciliation_rule_witness :
  exists w',
    exec reconcileEffect
      (mkWorld (mkState [] [] [] LatestMetric.zero 0 0 ["eth0"] ["eth0"; "gone"] false None) [])
    = Some w'
    /\ selectedInterfaces (state w') = ["eth0"; "gone"].
Proof.
  destruct (reconciliation_rule
              (mkWorld (mkState [] [] [] LatestMetric.zero 0 0 ["eth0"] ["eth0"; "gone"]
                          false None) []))
    as (w' & Hrun & _ & _ & Hkeep & _).
  exists w'. split; [exact Hrun|].
  apply Hkeep. intros [_ H]. discriminate H.
Defined.

(** Auto-fill: once eth0 and wlan0 become available with nothing
    selected, reconciliation selects both. *)
Example reconcile_auto_fill :
  reconcile ["eth0"; "wlan0"] [] = ["eth0"; "wlan0"]
  /\ reconcile ["eth0"; "wlan0"] ["eth0"] = ["eth0"]
  /\ reconcile [] [] = [].
Proof. repeat split. Qed.

(** ** Filtering by the selection *)

Lemma includes_In (arr : list string) (x : string) : includes arr x = true <-> In x arr.
Proof.
  unfold includes. rewrite existsb_exists. split.
  - intros (y & Hy & E). apply String.eqb_eq in E. now subst.
  - intro H. exists x. split; [exact H | apply String.eqb_refl].
Qed.

Lemma str_includes_empty (s : string) : str_includes s EmptyString = true.
Proof. destruct s; reflexivity. Qed.

Lemma matchesSearch_empty (row : TableMode.NetworkMetric) :
  TableMode.matchesSearch EmptyString row = true.
Proof.
  unfold TableMode.matchesSearch. cbn [toLowerCase]. now rewrite str_includes_empty.
Qed.

Lemma filter_all {A : Type} (p : A -> bool) (l : list A) :
  (forall x, p x = true) -> filter p l = l.
Proof.
  intro H. induction l as [|x l IH]; [reflexivity|]. cbn. now rewrite H, IH.
Qed.

Lemma filter_idempotent {A : Type} (p : A -> bool) (l : list A) :
  filter p (filter p l) = filter p l.
Proof.
  induction l as [|x l IH]; [reflexivity|]. cbn.
  destruct (p x) eqn:E; [|exact IH]. cbn. now rewrite E, IH.
Qed.

(** Claim C8, as stated, fails on the table view: with an empty
    selection and an empty search the filtered rows are all the rows of
    S1, not none. *)
Lemma empty_selection_keeps_every_row :
  TableMode.filteredData
    (TableMode.transformedData (AllMetrics.performance_metrics S1) (AllMetrics.interfaces S1))
    [] EmptyString
  = TableMode.transformedData (AllMetrics.performance_metrics S1) (AllMetrics.interfaces S1)
  /\ List.length
       (TableMode.filteredData
          (TableMode.transformedData (AllMetrics.performance_metrics S1)
             (AllMetrics.interfaces S1))
          [] EmptyString) = 2%nat.
Proof.
  assert (H : forall rows, TableMode.filteredData rows [] EmptyString = rows).
  { intro rows. unfold TableMode.filteredData, TableMode.keepRow.
    apply filter_all. intro row. now rewrite matchesSearch_empty, orb_true_r. }
  split; [apply H|]. rewrite H. reflexivity.
Qed.

(** Claim C8, amended.  A non-empty selection restricts the table to
    the rows of selected interfaces (that also match the search); an
    empty selection restricts nothing, so the table then shows every
    row that matches the search, all of them for an empty search.  The
    aggregate calculator looks at the samples of selected interfaces
    only, and over an empty selection all its KPIs are 0. *)
Theorem selection_filter_rule
    (rows : list TableMode.NetworkMetric) (metrics : list PerformanceMetric.t)
    (selected : list string) (search : string) :
  (forall row,
      In row (TableMode.filteredData rows selected search) ->
      In row rows /\ (selected <> [] -> In (TableMode.interface row) selected))
  /\ (selected <> [] ->
      TableMode.filteredData rows selected search
      = filter (fun row => includes selected (TableMode.interface row)
                           && TableMode.matchesSearch search row) rows)
  /\ TableMode.filteredData rows [] search = filter (TableMode.matchesSearch search) rows
  /\ TableMode.filteredData rows [] EmptyString = rows
  /\ Api.getLatestMetrics metrics selected
     = Api.getLatestMetrics (Api.filterSelected metrics selected) selected
  /\ Api.getLatestMetrics metrics [] = Api.mkResult LatestMetric.zero 0 0.
Proof.
  split; [|split; [|split; [|split; [|split]]]].
  - intros row H. unfold TableMode.filteredData in H. apply filter_In in H as [Hin Hkeep].
    split; [exact Hin|]. intro Hne.
    unfold TableMode.keepRow in Hkeep. apply andb_true_iff in Hkeep as [Hsel _].
    apply orb_true_iff in Hsel as [Hsel | Hlen].
    + now apply includes_In.
    + apply length_zero_nil in Hlen. contradiction.
  - intro Hne. unfold TableMode.filteredData. apply filter_ext. intro row.
    unfold TableMode.keepRow.
    destruct selected; [contradiction|]. cbn [List.length Nat.eqb]. now rewrite orb_false_r.
  - unfold TableMode.filteredData. apply filter_ext. intro row. reflexivity.
  - unfold TableMode.filteredData, TableMode.keepRow.
    apply filter_all. intro row. now rewrite matchesSearch_empty, orb_true_r.
  - unfold Api.getLatestMetrics, Api.filterSelected. now rewrite filter_idempotent.
  - unfold Api.getLatestMetrics, Api.filterSelected.
    replace (filter _ metrics) with (@nil PerformanceMetric.t); [reflexivity|].
    induction metrics as [|m l IH]; [reflexivity | exact IH].
Qed.

Lemma selection_filter_rule_witness :
  ["eth0"] <> []
  /\ TableMode.filteredData
       (TableMode.transformedData (AllMetrics.performance_metrics S1) (AllMetrics.interfaces S1))
       ["eth0"] EmptyString
     = filter (fun row => includes ["eth0"] (TableMode.interface row)
                          && TableMode.matchesSearch EmptyString row)
         (TableMode.transformedData (AllMetrics.performance_metrics S1)
            (AllMetrics.interfaces S1)).
Proof.
  assert (Hne : ["eth0"] <> []) by discriminate.
  split; [exact Hne|].
  destruct (selection_filter_rule
              (TableMode.transformedData (AllMetrics.performance_metrics S1)
                 (AllMetrics.interfaces S1))
              (AllMetrics.performance_metrics S1) ["eth0"] EmptyString)
    as (_ & Hsel & _).
  exact (Hsel Hne).
Defined.

(** ** A failed pull *)

(** Claim C9.  When the pull fails, the error becomes non-null and the
    derived state is zeroed: no samples, interfaces, chart points or
    available interfaces, and all latest and average KPIs at 0. *)
Theorem failed_pull_resets_derived_state (captured : list string) (w : World) :
  exists w',
    exec (fetchData captured None) w = Some w'
    /\ error (state w') = Some "Failed to fetch network metrics"
    /\ error (state w') <> None
    /\ metrics (state w') = []
    /\ interfaces (state w') = []
    /\ chartData (state w') = []
    /\ availableInterfaces (state w') = []
    /\ latestMetrics (state w') = LatestMetric.mk 0 0 0 0
    /\ avgLatency (state w') = 0%Q
    /\ avgThroughput (state w') = 0%Q
    /\ loading (state w') = false.
Proof.
  eexists. split; [apply exec_value; apply fetch_rejected|].
  cbn. repeat split. discriminate.
Qed.

(** ** The hook *)

(** Claim C10.  Outside any provider [useMetrics] throws the error
    'useMetrics must be used within a MetricsProvider'; below a
    [MetricsProvider] it returns the value that provider composed from
    its state. *)
Theorem useMetrics_needs_provider :
  useMetrics [] = Throw "useMetrics must be used within a MetricsProvider"
  /\ forall (s : State) (enclosing : list (option MetricsContextType)),
       useMetrics (MetricsProvider s enclosing) = Return (providerValue s)
       /\ view (providerValue s) = s.
Proof. split; [reflexivity|]. intros s enclosing. split; reflexivity. Qed.

(** * Further properties of the store and of the views *)

(** The outcome of the reconcile effect, for composing it with other
    steps. *)
Lemma reconciliation_effect_outcome (w : World) :
  exists w',
    exec reconcileEffect w = Some w'
    /\ availableInterfaces (state w') = availableInterfaces (state w)
    /\ selectedInterfaces (state w')
       = reconcile (availableInterfaces (state w)) (selectedInterfaces (state w)).
Proof.
  destruct w as [[m i cd lm al at' [|a av] [|e sel] ld er] c];
    (eexists; split; [vm_compute; reflexivity|]); split; reflexivity.
Qed.

(** ** Pushes, pulls and the flags *)

(** A recognised push never touches the loading flag or the error: after
    a failed pull followed by such a push, the store holds the samples
    of the message and still the error of the pull, so the dashboard
    keeps showing the error line instead of the data. *)
Theorem push_keeps_error_of_failed_pull
    (captured captured' : list string) (now : string) (data : Json)
    (snapshot : AllMetrics.t) (history : list AllMetrics.t) (w : World) :
  carries now data snapshot history ->
  (exists w1,
      exec (handleWebSocketUpdate captured now data) w = Some w1
      /\ loading (state w1) = loading (state w)
      /\ error (state w1) = error (state w))
  /\ (exists w2,
        exec (fetchData captured' None ;; handleWebSocketUpdate captured now data) w = Some w2
        /\ metrics (state w2) = AllMetrics.performance_metrics snapshot
        /\ error (state w2) = Some "Failed to fetch network metrics"
        /\ Dashboard.render (state w2) = Dashboard.ErrorScreen "Failed to fetch network metrics").
Proof.
  intro H. split.
  - eexists. split; [apply exec_value; apply (handle_recognised _ _ _ _ _ _ H)|].
    split; reflexivity.
  - eexists. split.
    + rewrite (exec_seq _ _ _ _ (fetch_rejected captured' w)).
      apply exec_value. apply (handle_recognised _ _ _ _ _ _ H).
    + repeat split.
Qed.

Lemma push_keeps_error_of_failed_pull_witness :
  carries t10 push1 S1 [S1]
  /\ exists w2,
       exec (fetchData [] None ;; handleWebSocketUpdate [] t10 push1) mounted = Some w2
       /\ metrics (state w2) = AllMetrics.performance_metrics S1
       /\ error (state w2) = Some "Failed to fetch network metrics"
       /\ Dashboard.render (state w2) = Dashboard.ErrorScreen "Failed to fetch network metrics".
Proof.
  split; [apply push1_carries|].
  apply (push_keeps_error_of_failed_pull [] [] t10 push1 S1 [S1] mounted).
  left. repeat split; reflexivity.
Defined.

(** A pull never changes the selection, and a successful pull wipes
    every trace of an earlier failure: after a failed pull and then a
    successful one the state is the one the successful pull alone would
    have given, with no error and no loading flag. *)
Theorem successful_pull_recovers_from_failure
    (captured captured' : list string) (snapshot : AllMetrics.t) (w : World) :
  exists w1 w2,
    exec (fetchData captured None ;; fetchData captured' (Some snapshot)) w = Some w1
    /\ exec (fetchData captured' (Some snapshot)) w = Some w2
    /\ state w1 = state w2
    /\ error (state w1) = None
    /\ loading (state w1) = false
    /\ selectedInterfaces (state w1) = selectedInterfaces (state w).
Proof.
  eexists. eexists. split; [|split].
  - rewrite (exec_seq _ _ _ _ (fetch_rejected captured w)).
    apply exec_value. apply fetch_fulfilled.
  - apply exec_value. apply fetch_fulfilled.
  - repeat split.
Qed.

(** After a successful pull, the reconcile effect selects every
    interface of the pulled snapshot when nothing was selected, and
    keeps a non-empty selection as it was, whether or not its names
    are among the pulled interfaces. *)
Theorem pull_then_reconcile_selection
    (captured : list string) (snapshot : AllMetrics.t) (w : World) :
  exists w',
    exec (fetchData captured (Some snapshot) ;; reconcileEffect) w = Some w'
    /\ availableInterfaces (state w')
       = map NetworkInterface.name (AllMetrics.interfaces snapshot)
    /\ (selectedInterfaces (state w) = [] ->
        selectedInterfaces (state w')
        = map NetworkInterface.name (AllMetrics.interfaces snapshot))
    /\ (selectedInterfaces (state w) <> [] ->
        selectedInterfaces (state w') = selectedInterfaces (state w)).
Proof.
  rewrite (exec_seq _ _ _ _ (fetch_fulfilled captured snapshot w)).
  destruct (reconciliation_effect_outcome
              (mkWorld (pulled captured snapshot (state w)) (console w)))
    as (w' & Hrun & Havail & Hsel).
  exists w'. split; [exact Hrun|]. split; [exact Havail|].
  rewrite Hsel. cbn. split; intro H.
  - rewrite H. now destruct (map NetworkInterface.name (AllMetrics.interfaces snapshot)).
  - destruct (selectedInterfaces (state w)); [contradiction|].
    now destruct (map NetworkInterface.name (AllMetrics.interfaces snapshot)).
Qed.

Lemma pull_then_reconcile_selection_witness :
  selectedInterfaces (state mounted) = []
  /\ exists w',
       exec (fetchData [] (Some S1) ;; reconcileEffect) mounted = Some w'
       /\ selectedInterfaces (state w') = ["eth0"; "wlan0"].
Proof.
  split; [reflexivity|].
  destruct (pull_then_reconcile_selection [] S1 mounted) as (w' & Hrun & _ & Hfill & _).
  exists w'. split; [exact Hrun|]. exact (Hfill eq_refl).
Defined.

(** ** The subscribed handler and the selection *)

(** The subscribed handler kept the empty selection of the first
    render, so every recognised push that names at least one interface
    selects all the interfaces of the message, whatever the operator
    had selected; a push that names none leaves the selection alone. *)
Theorem subscribed_push_selects_every_interface
    (now : string) (data : Json) (snapshot : AllMetrics.t)
    (history : list AllMetrics.t) (w : World) :
  carries now data snapshot history ->
  exists w',
    exec (subscribedHandler now data) w = Some w'
    /\ (AllMetrics.interfaces snapshot <> [] ->
        selectedInterfaces (state w')
        = map NetworkInterface.name (AllMetrics.interfaces snapshot))
    /\ (AllMetrics.interfaces snapshot = [] ->
        selectedInterfaces (state w') = selectedInterfaces (state w)).
Proof.
  intro H. eexists. split.
  - apply exec_value. apply (handle_recognised _ _ _ _ _ _ H).
  - cbn. unfold selectionAfterPush. cbn.
    destruct (AllMetrics.interfaces snapshot) as [|i l]; cbn; split; congruence.
Qed.

Lemma subscribed_push_selects_every_interface_witness :
  carries t10 push2 S2 [S2]
  /\ AllMetrics.interfaces S2 <> []
  /\ selectedInterfaces (state narrowed) = ["eth0"]
  /\ exists w',
       exec (subscribedHandler t10 push2) narrowed = Some w'
       /\ selectedInterfaces (state w') = ["eth0"; "wlan0"].
Proof.
  assert (Hne : AllMetrics.interfaces S2 <> []) by discriminate.
  split; [apply push2_carries|]. split; [exact Hne|]. split; [reflexivity|].
  assert (Hc : carries t10 push2 S2 [S2]) by (left; repeat split; reflexivity).
  destruct (subscribed_push_selects_every_interface t10 push2 S2 [S2] narrowed Hc)
    as (w' & Hrun & Hall & _).
  exists w'. split; [exact Hrun|]. exact (Hall Hne).
Defined.

Lemma pushed_idempotent (captured : list string) (snapshot : AllMetrics.t)
    (history : list AllMetrics.t) (s : State) :
  pushed captured snapshot history (pushed captured snapshot history s)
  = pushed captured snapshot history s.
Proof.
  unfold pushed. cbn. f_equal. unfold selectionAfterPush.
  destruct ((List.length captured =? 0)%nat
            && (0 <? List.length (map NetworkInterface.name (AllMetrics.interfaces snapshot)))%nat);
    reflexivity.
Qed.

(** Delivering a current-format message a second time, at whatever
    later instant, changes nothing: the world after the two deliveries
    is the world after the first. *)
Theorem duplicate_push_is_absorbed
    (captured : list string) (now now' : string) (data : Json)
    (currentData : AllMetrics.t) (historical_data : list AllMetrics.t) (w : World) :
  carriesCurrent data currentData historical_data ->
  exists w',
    exec (handleWebSocketUpdate captured now data) w = Some w'
    /\ exec (handleWebSocketUpdate captured now data ;;
             handleWebSocketUpdate captured now' data) w = Some w'.
Proof.
  intro H. eexists. split.
  - apply exec_value. apply (handle_current _ _ _ _ _ _ H).
  - rewrite (exec_seq _ _ _ _ (handle_current captured now _ _ _ w H)).
    rewrite (exec_value _ _ _ (handle_current captured now' _ _ _ _ H)).
    cbn [state console]. now rewrite pushed_idempotent.
Qed.

Lemma duplicate_push_is_absorbed_witness :
  carriesCurrent push1 S1 [S1]
  /\ exists w',
       exec (handleWebSocketUpdate [] t05 push1) narrowed = Some w'
       /\ exec (handleWebSocketUpdate [] t05 push1 ;;
                handleWebSocketUpdate [] t10 push1) narrowed = Some w'.
Proof.
  assert (H : carriesCurrent push1 S1 [S1]) by (repeat split; reflexivity).
  split; [exact H|].
  exact (duplicate_push_is_absorbed [] t05 t10 push1 S1 [S1] narrowed H).
Defined.

(** ** A legacy message without interfaces *)

Lemma rows_without_interfaces (metrics : list PerformanceMetric.t)
    (row : TableMode.NetworkMetric) :
  In row (TableMode.transformedData metrics []) ->
  TableMode.ipv4 row = None /\ TableMode.ipv6 row = None.
Proof.
  unfold TableMode.transformedData, mapi. generalize 0%nat.
  induction metrics as [|m l IH]; intros start H; [destruct H|].
  destruct H as [<- | H]; [split; reflexivity | exact (IH _ H)].
Qed.

(** A legacy message whose [interfaces] are missing, null or otherwise
    falsy is accepted all the same: its samples are stored, the
    interface list and the available names become empty, the selection
    stays, and every row the table builds from the new state has no
    address to show. *)
Theorem legacy_push_without_interfaces
    (captured : list string) (now : string) (data : Json)
    (performance_metrics : list PerformanceMetric.t) (w : World) :
  isCurrentFormat data = false ->
  isLegacyFormat data = true ->
  truthy (prop "interfaces" (Some data)) = false ->
  Typed.array Typed.performanceMetric (prop "performance_metrics" (Some data))
  = Some performance_metrics ->
  exists w',
    exec (handleWebSocketUpdate captured now data) w = Some w'
    /\ metrics (state w') = performance_metrics
    /\ interfaces (state w') = []
    /\ availableInterfaces (state w') = []
    /\ selectedInterfaces (state w') = selectedInterfaces (state w)
    /\ forall row,
         In row (TableMode.transformedData (metrics (state w')) (interfaces (state w'))) ->
         TableMode.ipv4 row = None /\ TableMode.ipv6 row = None.
Proof.
  intros Hcur Hleg Hifs Hpm.
  assert (H : carriesLegacy data performance_metrics []).
  { repeat split; try assumption. unfold interfacesOrEmpty. now rewrite Hifs. }
  eexists. split; [apply exec_value; apply (handle_legacy _ _ _ _ _ _ H)|].
  cbn. unfold selectionAfterPush. cbn. rewrite andb_false_r.
  do 4 (split; [reflexivity|]).
  intros row Hrow. exact (rows_without_interfaces _ _ Hrow).
Qed.

Lemma legacy_push_without_interfaces_witness :
  exists w',
    exec (handleWebSocketUpdate [] t10 (JObj [("performance_metrics", JArr [])])) narrowed
    = Some w'
    /\ metrics (state w') = []
    /\ interfaces (state w') = []
    /\ availableInterfaces (state w') = []
    /\ selectedInterfaces (state w') = ["eth0"].
Proof.
  destruct (legacy_push_without_interfaces [] t10 (JObj [("performance_metrics", JArr [])])
              [] narrowed eq_refl eq_refl eq_refl eq_refl)
    as (w' & Hrun & Hm & Hi & Ha & Hs & _).
  exists w'. repeat split; assumption.
Defined.

(** ** Refresh *)

(** [refreshData], taken from the value a render provides, pulls under
    the selection of that render: after a successful refresh the latest
    view is that of the pulled snapshot under the current selection,
    and the selection is unchanged. *)
Theorem refresh_uses_current_selection
    (s : State) (log0 : list LogEntry) (snapshot : AllMetrics.t) :
  exists w',
    exec (refreshData (providerValue s) (Some snapshot)) (mkWorld s log0) = Some w'
    /\ latestView (state w') = viewOf snapshot (selectedInterfaces s)
    /\ avgLatency (state w')
       = Api.avgLatency
           (Api.getLatestMetrics (AllMetrics.performance_metrics snapshot)
              (selectedInterfaces s))
    /\ avgThroughput (state w')
       = Api.avgThroughput
           (Api.getLatestMetrics (AllMetrics.performance_metrics snapshot)
              (selectedInterfaces s))
    /\ selectedInterfaces (state w') = selectedInterfaces s.
Proof.
  eexists. split.
  - apply exec_value. cbn [refreshData providerValue]. apply fetch_fulfilled.
  - repeat split.
Qed.

(** ** The selection widget *)

Lemma filter_other_In (selected : list string) (v u : string) :
  In u (filter (fun item => negb (String.eqb item v)) selected) <-> In u selected /\ u <> v.
Proof.
  rewrite filter_In, negb_true_iff, String.eqb_neq. reflexivity.
Qed.

Lemma filter_other_absent (selected : list string) (v : string) :
  ~ In v selected -> filter (fun item => negb (String.eqb item v)) selected = selected.
Proof.
  induction selected as [|x l IH]; intro H; [reflexivity|]. cbn.
  destruct (String.eqb_spec x v) as [-> | Hne].
  - exfalso. apply H. now left.
  - cbn. f_equal. apply IH. intro Hin. apply H. now right.
Qed.

(** Clicking an option toggles exactly that value: afterwards it is
    selected if and only if it was not, and every other value is
    selected if and only if it was. *)
Theorem handleSelect_toggles_one_value (selected : list string) (v u : string) :
  In u (MultiSelect.handleSelect selected (fun l => l) v)
  <-> (u = v /\ ~ In v selected) \/ (u <> v /\ In u selected).
Proof.
  unfold MultiSelect.handleSelect.
  destruct (includes selected v) eqn:E.
  - apply includes_In in E. rewrite filter_other_In. split.
    + intros [Hin Hne]. right. now split.
    + intros [[_ Hnot] | [Hne Hin]]; [contradiction | now split].
  - assert (Hnot : ~ In v selected).
    { intro Hin. apply includes_In in Hin. congruence. }
    rewrite in_app_iff. cbn. split.
    + intros [Hin | [<- | []]].
      * right. split; [|exact Hin]. intros ->. contradiction.
      * left. now split.
    + intros [[-> _] | [_ Hin]]; [right; now left | now left].
Qed.

(** Clicking the same option twice: a value that was not selected is
    selected and then removed again, which restores the selection; a
    value that was selected is removed and then appended, so it comes
    back at the end of the selection. *)
Theorem handleSelect_twice (selected : list string) (v : string) :
  (~ In v selected ->
   MultiSelect.handleSelect (MultiSelect.handleSelect selected (fun l => l) v) (fun l => l) v
   = selected)
  /\ (In v selected ->
      MultiSelect.handleSelect (MultiSelect.handleSelect selected (fun l => l) v) (fun l => l) v
      = filter (fun item => negb (String.eqb item v)) selected ++ [v]).
Proof.
  unfold MultiSelect.handleSelect. split; intro H.
  - assert (E : includes selected v = false).
    { destruct (includes selected v) eqn:E; [|reflexivity].
      apply includes_In in E. contradiction. }
    rewrite E.
    assert (E' : includes (selected ++ [v]) v = true).
    { apply includes_In. apply in_or_app. right. now left. }
    rewrite E'. rewrite filter_app. cbn. rewrite String.eqb_refl. cbn.
    rewrite app_nil_r. now apply filter_other_absent.
  - assert (E : includes selected v = true) by (apply includes_In; exact H).
    rewrite E.
    assert (E' : includes (filter (fun item => negb (String.eqb item v)) selected) v = false).
    { destruct (includes (filter (fun item => negb (String.eqb item v)) selected) v) eqn:E';
        [|reflexivity].
      apply includes_In, filter_other_In in E'. now destruct E'. }
    rewrite E'. reflexivity.
Qed.

Lemma handleSelect_twice_witness :
  ~ In "wlan0" ["eth0"]
  /\ MultiSelect.handleSelect
       (MultiSelect.handleSelect ["eth0"] (fun l => l) "wlan0") (fun l => l) "wlan0"
     = ["eth0"]
  /\ In "eth0" ["eth0"; "wlan0"]
  /\ MultiSelect.handleSelect
       (MultiSelect.handleSelect ["eth0"; "wlan0"] (fun l => l) "eth0") (fun l => l) "eth0"
     = ["wlan0"; "eth0"].
Proof.
  assert (Hout : ~ In "wlan0" ["eth0"]).
  { intros [H | []]. discriminate H. }
  assert (Hin : In "eth0" ["eth0"; "wlan0"]) by now left.
  split; [exact Hout|].
  split; [exact (proj1 (handleSelect_twice ["eth0"] "wlan0") Hout)|].
  split; [exact Hin|].
  exact (proj2 (handleSelect_twice ["eth0"; "wlan0"] "eth0") Hin).
Defined.

(** No handler of the widget introduces a duplicate: from a selection
    without repetition, clicking an option or removing a badge gives a
    selection without repetition. *)
Theorem selection_stays_duplicate_free (selected : list string) (v : string) :
  NoDup selected ->
  NoDup (MultiSelect.handleSelect selected (fun l => l) v)
  /\ NoDup (MultiSelect.handleRemove selected (fun l => l) v)
  /\ ~ In v (MultiSelect.handleRemove selected (fun l => l) v).
Proof.
  intro H. unfold MultiSelect.handleSelect, MultiSelect.handleRemove.
  assert (Hf : NoDup (filter (fun item => negb (String.eqb item v)) selected))
    by now apply NoDup_filter.
  split; [|split].
  - destruct (includes selected v) eqn:E; [exact Hf|].
    apply NoDup_app; [exact H | repeat constructor; intros [] |].
    intros x Hx [<- | []]. apply includes_In in Hx. congruence.
  - exact Hf.
  - intro Hin. apply filter_other_In in Hin. now destruct Hin.
Qed.

Lemma selection_stays_duplicate_free_witness :
  NoDup ["eth0"; "wlan0"]
  /\ NoDup (MultiSelect.handleSelect ["eth0"; "wlan0"] (fun l => l) "eth0")
  /\ NoDup (MultiSelect.handleRemove ["eth0"; "wlan0"] (fun l => l) "eth0")
  /\ ~ In "eth0" (MultiSelect.handleRemove ["eth0"; "wlan0"] (fun l => l) "eth0").
Proof.
  assert (H : NoDup ["eth0"; "wlan0"]).
  { constructor; [intros [E | []]; discriminate E|].
    constructor; [intros []|constructor]. }
  split; [exact H|].
  exact (selection_stays_duplicate_free ["eth0"; "wlan0"] "eth0" H).
Defined.

Lemma length_optionsOf (availableInterfaces : list string) :
  List.length (MultiSelect.optionsOf availableInterfaces) = List.length availableInterfaces.
Proof. unfold MultiSelect.optionsOf. apply length_map. Qed.

(** The clear button of the label "All ..." is on screen only while
    something is selected, so pressing it always clears the selection:
    the branch of [handleSelectAllLabel] that selects everything is
    never reached from the button.  In the dashboard the reconcile
    effect then selects every available interface again. *)
Theorem all_label_button_clears
    (options : list MultiSelect.MultiSelectOption) (selected : list string)
    (placeholder name : string) (w : World) :
  MultiSelectTrigger.trigger options selected placeholder = MultiSelectTrigger.AllLabel name ->
  MultiSelect.handleSelectAllLabel options selected (fun l => l) = []
  /\ (options = MultiSelect.optionsOf (availableInterfaces (state w)) ->
      exists w',
        exec (MultiSelect.handleSelectAllLabel options selected setSelectedInterfaces ;;
              reconcileEffect) w = Some w'
        /\ selectedInterfaces (state w') = availableInterfaces (state w)).
Proof.
  unfold MultiSelectTrigger.trigger, MultiSelect.handleSelectAllLabel.
  destruct (List.length selected =? 0)%nat eqn:E0; [discriminate|].
  destruct (List.length selected =? List.length options)%nat eqn:E1; [|discriminate].
  intros _. split; [reflexivity|]. intros ->.
  apply Nat.eqb_eq in E1. apply Nat.eqb_neq in E0. rewrite length_optionsOf in E1.
  destruct w as [[m i cd lm al at' [|a av] sel ld er] c].
  - cbn in E1. lia.
  - eexists. split; [vm_compute; reflexivity | reflexivity].
Qed.

Lemma all_label_button_clears_witness :
  MultiSelectTrigger.trigger (MultiSelect.optionsOf ["eth0"; "wlan0"]) ["eth0"; "gone"]
    "Select interfaces..."
  = MultiSelectTrigger.AllLabel "Options"
  /\ MultiSelect.handleSelectAllLabel (MultiSelect.optionsOf ["eth0"; "wlan0"])
       ["eth0"; "gone"] (fun l => l) = []
  /\ exists w',
       exec (MultiSelect.handleSelectAllLabel (MultiSelect.optionsOf ["eth0"; "wlan0"])
               ["eth0"; "gone"] setSelectedInterfaces ;;
             reconcileEffect) narrowed = Some w'
       /\ selectedInterfaces (state w') = ["eth0"; "wlan0"].
Proof.
  split; [reflexivity|].
  destruct (all_label_button_clears (MultiSelect.optionsOf ["eth0"; "wlan0"])
              ["eth0"; "gone"] "Select interfaces..." "Options" narrowed eq_refl)
    as [Hclear Hdash].
  split; [exact Hclear | exact (Hdash eq_refl)].
Defined.

(** ** The dashboard badges *)

Lemma lt_true (a b : Q) : Dashboard.lt a b = true <-> (a < b)%Q.
Proof. exact (gt_true b a). Qed.

Lemma lt_false (a b : Q) : Dashboard.lt a b = false <-> (b <= a)%Q.
Proof. exact (gt_false b a). Qed.

(** The latency badge has two values only: "Optimal" below 50 ms and
    "High" from 50 ms on.  The label "Good" is never shown, because its
    test, latency below 10, is made only once latency is at least 50. *)
Theorem latency_badge_is_never_good (latency : Q) :
  Dashboard.latencyBadge latency <> "Good"
  /\ (Dashboard.latencyBadge latency = "Optimal" <-> (latency < 50)%Q)
  /\ (Dashboard.latencyBadge latency = "High" <-> (50 <= latency)%Q).
Proof.
  unfold Dashboard.latencyBadge.
  destruct (Dashboard.lt latency 50) eqn:E50.
  - apply lt_true in E50. split; [discriminate|]. split; split; intro H;
      try reflexivity; try assumption; try discriminate. lra.
  - apply lt_false in E50.
    destruct (Dashboard.lt latency 10) eqn:E10.
    + apply lt_true in E10. lra.
    + split; [discriminate|]. split; split; intro H;
        try reflexivity; try assumption; try discriminate. lra.
Qed.

(** ** The table view *)

Lemma showNat_inj (n m : nat) : showNat n = showNat m -> n = m.
Proof.
  unfold showNat. intro H.
  assert (Hnil : forall k, Nat.to_uint k <> Decimal.Nil).
  { intros k Hk.
    assert (Hz : k = 0%nat) by (rewrite <- (Unsigned.of_to k), Hk; reflexivity).
    subst k. discriminate Hk. }
  apply (f_equal NilZero.uint_of_string) in H.
  rewrite !NilZero.usu in H by apply Hnil.
  injection H as H. now apply Unsigned.to_uint_inj.
Qed.

Lemma NoDup_map_injective {A B : Type} (f : A -> B) (l : list A) :
  (forall x y, f x = f y -> x = y) -> NoDup l -> NoDup (map f l).
Proof.
  intros Hinj H. induction H as [|x l Hx Hl IH]; cbn; constructor; [|exact IH].
  intro Hin. apply in_map_iff in Hin as (y & Hy & Hyl).
  apply Hinj in Hy. subst y. contradiction.
Qed.

Lemma mapi_from_ids (interfaces : list NetworkInterface.t)
    (metrics : list PerformanceMetric.t) (start : nat) :
  map TableMode.id (mapi_from start (TableMode.transformRow interfaces) metrics)
  = map showNat (seq start (List.length metrics)).
Proof.
  revert start. induction metrics as [|m l IH]; intro start; [reflexivity|].
  cbn. f_equal. apply IH.
Qed.

Lemma mapi_from_interfaces (interfaces : list NetworkInterface.t)
    (metrics : list PerformanceMetric.t) (start : nat) :
  map TableMode.interface (mapi_from start (TableMode.transformRow interfaces) metrics)
  = map PerformanceMetric.interface metrics.
Proof.
  revert start. induction metrics as [|m l IH]; intro start; [reflexivity|].
  cbn. f_equal. apply IH.
Qed.

(** The table has one row per sample, in the order of the samples, and
    the row keys are pairwise distinct, also when two samples name the
    same interface. *)
Theorem table_rows_follow_samples
    (metrics : list PerformanceMetric.t) (interfaces : list NetworkInterface.t) :
  List.length (TableMode.transformedData metrics interfaces) = List.length metrics
  /\ map TableMode.interface (TableMode.transformedData metrics interfaces)
     = map PerformanceMetric.interface metrics
  /\ NoDup (map TableMode.id (TableMode.transformedData metrics interfaces)).
Proof.
  unfold TableMode.transformedData, mapi. split; [|split].
  - rewrite <- (length_map TableMode.interface), mapi_from_interfaces. apply length_map.
  - apply mapi_from_interfaces.
  - rewrite mapi_from_ids. apply NoDup_map_injective; [|apply seq_NoDup].
    intros n m. apply showNat_inj.
Qed.

(** A non-empty selection none of whose names occurs among the rows
    empties the table, whereas the empty selection shows every row:
    deselecting the last interface that has data and clearing the
    selection have opposite effects. *)
Theorem stale_selection_empties_table
    (rows : list TableMode.NetworkMetric) (selected : list string) (search : string) :
  selected <> [] ->
  (forall row, In row rows -> ~ In (TableMode.interface row) selected) ->
  TableMode.filteredData rows selected search = []
  /\ TableMode.filteredData rows [] EmptyString = rows.
Proof.
  intros Hne Hstale. split.
  - unfold TableMode.filteredData.
    induction rows as [|row l IH]; [reflexivity|]. cbn.
    assert (E : TableMode.keepRow selected search row = false).
    { unfold TableMode.keepRow.
      destruct (includes selected (TableMode.interface row)) eqn:Ei.
      - apply includes_In in Ei. exfalso. apply (Hstale row); [now left | exact Ei].
      - destruct selected; [contradiction | reflexivity]. }
    rewrite E. apply IH. intros r Hr. apply Hstale. now right.
  - unfold TableMode.filteredData, TableMode.keepRow.
    apply filter_all. intro row. now rewrite matchesSearch_empty, orb_true_r.
Qed.

Lemma stale_selection_empties_table_witness :
  ["gone"] <> []
  /\ TableMode.filteredData
       (TableMode.transformedData (AllMetrics.performance_metrics S1) (AllMetrics.interfaces S1))
       ["gone"] EmptyString = [].
Proof.
  assert (Hne : ["gone"] <> []) by discriminate.
  split; [exact Hne|].
  refine (proj1 (stale_selection_empties_table
                   (TableMode.transformedData (AllMetrics.performance_metrics S1)
                      (AllMetrics.interfaces S1))
                   ["gone"] EmptyString Hne _)).
  intros row [<- | [<- | []]] [H | []]; vm_compute in H; discriminate H.
Defined.



(** ** The log view *)

Lemma toggle_expanded (Date LogEntry : Type) (s : LoggingSection.State Date LogEntry)
    (logId : string) :
  LoggingSection.expandedLogId _ _ (LoggingSection.toggleLogExpansion Date LogEntry logId s)
  = match LoggingSection.expandedLogId _ _ s with
    | Some current => if String.eqb current logId then None else Some logId
    | None => Some logId
    end.
Proof. reflexivity. Qed.

(** Expanding a log entry collapses the one that was open, and pressing
    the same button again leaves nothing open: after two presses on an
    entry that was closed no entry is expanded, also when another one
    was open before; after two presses on the open entry it is open
    again. *)
Theorem toggle_log_expansion_twice
    (Date LogEntry : Type) (s : LoggingSection.State Date LogEntry) (logId : string) :
  let once := LoggingSection.toggleLogExpansion Date LogEntry logId s in
  let twice := LoggingSection.toggleLogExpansion Date LogEntry logId once in
  (LoggingSection.expandedLogId _ _ s <> Some logId ->
   LoggingSection.expandedLogId _ _ once = Some logId
   /\ LoggingSection.expandedLogId _ _ twice = None)
  /\ (LoggingSection.expandedLogId _ _ s = Some logId ->
      LoggingSection.expandedLogId _ _ once = None
      /\ LoggingSection.expandedLogId _ _ twice = Some logId)
  /\ LoggingSection.logs _ _ twice = LoggingSection.logs _ _ s.
Proof.
  cbn zeta. rewrite !toggle_expanded.
  split; [|split; [|reflexivity]].
  - intro H. destruct (LoggingSection.expandedLogId Date LogEntry s) as [current|].
    + destruct (String.eqb_spec current logId) as [-> | Hne]; [congruence|].
      rewrite String.eqb_refl. now split.
    + rewrite String.eqb_refl. now split.
  - intros ->. rewrite String.eqb_refl. now split.
Qed.

Lemma toggle_log_expansion_twice_witness :
  LoggingSection.expandedLogId string string
    (LoggingSection.setExpandedLogId string string (Some "a")
       (LoggingSection.initialState string string)) <> Some "b"
  /\ LoggingSection.expandedLogId string string
       (LoggingSection.toggleLogExpansion string string "b"
          (LoggingSection.toggleLogExpansion string string "b"
             (LoggingSection.setExpandedLogId string string (Some "a")
                (LoggingSection.initialState string string)))) = None.
Proof.
  assert (H : LoggingSection.expandedLogId string string
                (LoggingSection.setExpandedLogId string string (Some "a")
                   (LoggingSection.initialState string string)) <> Some "b").
  { cbn. intro E. discriminate E. }
  split; [exact H|].
  exact (proj2 (proj1 (toggle_log_expansion_twice string string
                         (LoggingSection.setExpandedLogId string string (Some "a")
                            (LoggingSection.initialState string string)) "b") H)).
Defined.

(** When fetching the logs fails, the list fetched before stays on
    screen next to the error and the filters are untouched.  An export
    that then succeeds does not clear that error; the next fetch that
    succeeds does, and replaces the list. *)
Theorem failed_log_fetch_keeps_list
    (Date : Type) (toISOString : Date -> string) (LogEntry : Type)
    (fetchLogs fetchLogs' : LoggingSection.LogQueryParams -> option (list LogEntry))
    (exportLogs : LoggingSection.LogQueryParams -> LoggingSection.ExportFormat -> bool)
    (format : LoggingSection.ExportFormat) (fetched : list LogEntry)
    (s : LoggingSection.State Date LogEntry) :
  let query := LoggingSection.queryParams Date toISOString LogEntry in
  let s1 := fst (LoggingSection.fetchFilteredLogs Date toISOString LogEntry fetchLogs s) in
  let s2 := fst (LoggingSection.handleExport Date toISOString LogEntry exportLogs format s1) in
  let s3 := fst (LoggingSection.fetchFilteredLogs Date toISOString LogEntry fetchLogs' s2) in
  fetchLogs (query s) = None ->
  exportLogs (query s) format = true ->
  fetchLogs' (query s) = Some fetched ->
  (LoggingSection.logs _ _ s1 = LoggingSection.logs _ _ s
   /\ LoggingSection.error _ _ s1 = Some "Failed to fetch logs"
   /\ LoggingSection.loading _ _ s1 = false
   /\ query s1 = query s)
  /\ (LoggingSection.logs _ _ s2 = LoggingSection.logs _ _ s
      /\ LoggingSection.error _ _ s2 = Some "Failed to fetch logs"
      /\ LoggingSection.exportLoading _ _ s2 = false)
  /\ (LoggingSection.logs _ _ s3 = fetched
      /\ LoggingSection.error _ _ s3 = None
      /\ LoggingSection.loading _ _ s3 = false).
Proof.
  destruct s as [st en lv alv mt amt term lg ld er ex exl].
  cbn zeta. intros Hfail Hexport Hok.
  unfold LoggingSection.fetchFilteredLogs, LoggingSection.handleExport,
    LoggingSection.queryParams in *.
  cbn in *. rewrite Hfail. cbn. rewrite Hexport. cbn. rewrite Hok. cbn.
  repeat split.
Qed.

Lemma failed_log_fetch_keeps_list_witness :
  let s := LoggingSection.setLogs string string ["old entry"]
             (LoggingSection.initialState string string) in
  let s1 := fst (LoggingSection.fetchFilteredLogs string (fun d => d) string
                   (fun _ => None) s) in
  LoggingSection.logs _ _ s1 = ["old entry"]
  /\ LoggingSection.error _ _ s1 = Some "Failed to fetch logs".
Proof.
  cbn zeta.
  destruct (failed_log_fetch_keeps_list string (fun d => d) string
              (fun _ => None) (fun _ => Some ["new entry"]) (fun _ _ => true)
              LoggingSection.json ["new entry"]
              (LoggingSection.setLogs string string ["old entry"]
                 (LoggingSection.initialState string string))
              eq_refl eq_refl eq_refl)
    as ((Hlogs & Herr & _) & _).
  split; [exact Hlogs | exact Herr].
Defined.

(** ** The guards of the push handler *)

(** The legacy guard is exactly the array test: the two truthiness
    tests in front of [Array.isArray] never decide, so an empty
    [performance_metrics] array is accepted like any other, and a value
    is taken for a legacy message exactly when it carries a
    [performance_metrics] array.  The current-format guard is stricter
    than carrying the two keys: a null, zero, false or empty-string
    [current_data] or [historical_data] fails it. *)
Theorem legacy_guard_is_array_test (data : Json) :
  isLegacyFormat data = isArray (prop "performance_metrics" (Some data))
  /\ (isLegacyFormat data = true <-> matchesLegacyShape data)
  /\ (isCurrentFormat data = true <->
      truthy (prop "current_data" (Some data)) = true
      /\ truthy (prop "historical_data" (Some data)) = true).
Proof.
  assert (H : isLegacyFormat data = isArray (prop "performance_metrics" (Some data))).
  { unfold isLegacyFormat.
    destruct data as [| b | n | s | items | props];
      cbn; rewrite ?andb_false_r; try reflexivity.
    destruct (assoc "performance_metrics" props) as [[| b | n | s | items | ps]|];
      cbn; rewrite ?andb_false_r; reflexivity. }
  split; [exact H|]. split.
  - unfold matchesLegacyShape. now rewrite H.
  - unfold isCurrentFormat. rewrite !andb_true_iff.
    destruct data as [| b | n | s | items | props]; cbn; intuition discriminate.
Qed.
